(** * LightArt autocomplete service and image-suggestion pipeline

    A shallow embedding of [main.py] (the FastAPI text endpoints backed by a
    local Llama model) and of [suggestionsPY.py] (the Gemini image pipeline
    with its pydantic schema), together with the properties the
    specification states about them.

    Python [str] values are sequences of Unicode code points; handlers and
    the pipeline run in a small state / exception / trace monad, so that
    "the model is never invoked" or "the fallback is attempted" are
    statements about the recorded trace. *)

From Stdlib Require Import NArith ZArith List Ascii String Floats Lia.
From stdpp Require Import base option list gmap strings pretty.

Set Default Proof Using "Type".
Set Warnings "-register-all,-inexact-float".
Local Open Scope list_scope.

(** ** Python strings *)

Module PyStr.

(** A [str] is the list of its code points. *)
Definition codepoint : Type := N.
Definition str : Type := list codepoint.

(** ASCII literals of the source text. *)
Definition lit (s : string) : str :=
  map N_of_ascii (list_ascii_of_string s).

Definition NL : codepoint := 10%N.       (* "\n" *)
Definition DQ : codepoint := 34%N.       (* the double quote *)
Definition BULLET : codepoint := 0x2022%N.

(** [str.isspace] on one code point: the ASCII table of CPython
    ([\t \n \v \f \r], [\x1c]-[\x1f], space) and the Unicode
    White_Space / bidirectional WS, B, S code points above it. *)
Definition isspace (c : codepoint) : bool :=
  (((0x09 <=? c) && (c <=? 0x0D))
   || ((0x1C <=? c) && (c <=? 0x20))
   || (c =? 0x85) || (c =? 0xA0) || (c =? 0x1680)
   || ((0x2000 <=? c) && (c <=? 0x200A))
   || (c =? 0x2028) || (c =? 0x2029) || (c =? 0x202F)
   || (c =? 0x205F) || (c =? 0x3000))%N.

(** Membership of a code point in the [chars] argument of [strip]. *)
Definition in_chars (chars : str) (c : codepoint) : bool :=
  existsb (N.eqb c) chars.

Fixpoint lstrip_with (p : codepoint -> bool) (s : str) : str :=
  match s with
  | [] => []
  | c :: s' => if p c then lstrip_with p s' else s
  end.

Definition rstrip_with (p : codepoint -> bool) (s : str) : str :=
  rev (lstrip_with p (rev s)).

Definition strip_with (p : codepoint -> bool) (s : str) : str :=
  rstrip_with p (lstrip_with p s).

(** [s.strip()], [s.lstrip()], [s.rstrip()] *)
Definition strip (s : str) : str := strip_with isspace s.
Definition lstrip (s : str) : str := lstrip_with isspace s.
Definition rstrip (s : str) : str := rstrip_with isspace s.

(** [s.strip(chars)] *)
Definition strip_chars (chars s : str) : str := strip_with (in_chars chars) s.

(** [s.startswith(prefix)] *)
Fixpoint startswith (prefix s : str) : bool :=
  match prefix, s with
  | [], _ => true
  | _ :: _, [] => false
  | a :: prefix', b :: s' => (a =? b)%N && startswith prefix' s'
  end.

(** [s.replace(old, new)] for a non-empty [old]: scan left to right;
    after a match the next [length old - 1] code points are skipped, so
    occurrences never overlap and the replacement is not rescanned. *)
Fixpoint replace_from (old new : str) (skip : nat) (s : str) : str :=
  match s with
  | [] => []
  | c :: s' =>
      match skip with
      | S k => replace_from old new k s'
      | O =>
          if startswith old s
          then new ++ replace_from old new (length old - 1) s'
          else c :: replace_from old new 0 s'
      end
  end.

(** [s.replace(old, new)]; an empty [old] matches between all code
    points and at both ends. *)
Definition replace (old new s : str) : str :=
  match old with
  | [] => new ++ flat_map (fun c => c :: new) s
  | _ :: _ => replace_from old new 0 s
  end.

(** [s.endswith(suffix)] *)
Definition endswith (suffix s : str) : bool :=
startswith (rev suffix) (rev s).

(** [sub in s] *)
Fixpoint contains (sub s : str) : bool :=
startswith sub s
|| match s with
   | [] => false
   | _ :: s' => contains sub s'
   end.

(** [not s]: a string is falsy exactly when it is empty. *)
Definition is_empty (s : str) : bool :=
  match s with [] => true | _ :: _ => false end.

End PyStr.

Import PyStr.

(** ** Python values, exceptions and the effect monad *)

Module Py.

(** The objects [json.loads] builds, also used for literal [dict]s.  A
    [PyDict] lists the items of a dictionary, whose keys are distinct. *)
Inductive pyobj : Type :=
| PyNone
| PyBool (b : bool)
| PyInt (z : Z)
| PyFloat (f : float)
| PyStr (s : str)
| PyList (l : list pyobj)
| PyDict (items : list (str * pyobj)).

(** [d.get(k)] *)
Fixpoint dict_get (k : str) (items : list (str * pyobj)) : option pyobj :=
  match items with
  | [] => None
  | (k', v) :: items' =>
      if bool_decide (k' = k) then Some v else dict_get k items'
  end.

(** Instances of [Exception].  fastapi's [HTTPException] carries a status
    code and a detail; any other exception is kept as its class name and
    its [str(e)] text. *)
Inductive exn : Type :=
| HTTPException (status_code : Z) (detail : str)
| PyError (cls : string) (text : str).

(** [str(e)] *)
Definition exn_str (e : exn) : str :=
  match e with
  | HTTPException code detail => lit (pretty code) ++ lit ": " ++ detail
  | PyError _ text => text
  end.

Inductive result (A : Type) : Type :=
| Ok (a : A)
| Raise (e : exn).
Arguments Ok {A} a.
Arguments Raise {A} e.

(** A computation over a state [S] that may raise and that appends the
    observable events of type [E] it performs. *)
Definition M (S E A : Type) : Type := S -> result A * S * list E.

Definition ret {S E A} (a : A) : M S E A := fun s => (Ok a, s, []).

Definition bind {S E A B} (m : M S E A) (f : A -> M S E B) : M S E B :=
  fun s =>
    match m s with
    | (Ok a, s', t) => let '(r, s'', t') := f a s' in (r, s'', t ++ t')
    | (Raise e, s', t) => (Raise e, s', t)
    end.

(** [raise e] *)
Definition raise {S E A} (e : exn) : M S E A := fun s => (Raise e, s, []).

(** [try: body  except Exception as e: handler e] *)
Definition try_except {S E A} (body : M S E A) (handler : exn -> M S E A)
  : M S E A :=
  fun s =>
    match body s with
    | (Ok a, s', t) => (Ok a, s', t)
    | (Raise e, s', t) =>
        let '(r, s'', t') := handler e s' in (r, s'', t ++ t')
    end.

(** A pure computation that returns or raises. *)
Definition lift {S E A} (r : result A) : M S E A := fun s => (r, s, []).

Definition get {S E} : M S E S := fun s => (Ok s, s, []).
Definition put {S E} (s : S) : M S E unit := fun _ => (Ok tt, s, []).

(** Perform an observable action [ev] whose outcome is [r]. *)
Definition emit {S E A} (ev : E) (r : result A) : M S E A :=
  fun s => (r, s, [ev]).

(** The three components of a run. *)
Definition outcome {A S E} (x : result A * S * list E) : result A := x.1.1.
Definition final {A S E} (x : result A * S * list E) : S := x.1.2.
Definition trace {A S E} (x : result A * S * list E) : list E := x.2.

#[global] Instance M_ret {S E} : MRet (M S E) := fun A => @ret S E A.
#[global] Instance M_bind {S E} : MBind (M S E) :=
  fun A B f m => @bind S E A B m f.
#[global] Instance M_fmap {S E} : FMap (M S E) :=
  fun A B f m => bind m (fun a => ret (f a)).

End Py.

Import Py.

(** ** main.py *)

Module Main.

Definition MODEL_PATH : str := lit "./llama-3.2-3b-instruct-q4_k_m.gguf".

(** The arguments of [llm.create_chat_completion]. *)
Record message : Type := { role : str; content : str }.
Record sampling : Type :=
  { max_tokens : Z; temperature : float; top_p : float }.

(** What the call returns: [response["choices"][i]["message"]["content"]],
    which llama_cpp types as an optional string. *)
Record choice : Type := { message_content : option str }.
Record chat_response : Type := { choices : list choice }.

(** The model handle. *)
Record Llama : Type :=
  { create_chat_completion : list message -> sampling -> result chat_response }.

Record llama_args : Type :=
  { model_path : str; n_ctx : Z; n_gpu_layers : Z; verbose : bool }.

(** The module global [llm]. *)
Record server : Type := { llm : option Llama }.

Inductive event : Type :=
| Print (text : str)
| LoadModel (args : llama_args)
| ChatCompletion (messages : list message) (config : sampling).

Record AutocompleteRequest : Type :=
  { sentence : str; suggestions : list str }.

(** The [min_length=1] constraint on [suggestions], enforced by pydantic
    before a handler is entered. *)
Definition valid_request (request : AutocompleteRequest) : Prop :=
  1 <= length (suggestions request).

Record AutocompleteResponse : Type :=
  { completion : str; full_text : str }.

(** What the module takes from its libraries: the [Llama] constructor,
    which may raise, and [str()] of a list of strings, which the prompt
    f-strings interpolate. *)
Section Handlers.

Variable Llama_new : llama_args -> result Llama.
Variable str_of_list : list str -> str.

Definition print (text : str) : M server event unit :=
  emit (Print text) (Ok tt).

(** Lines 30-35: the arguments of [Llama(...)]. *)
Definition llama_kwargs : llama_args :=
{| model_path := MODEL_PATH; n_ctx := 2048; n_gpu_layers := 0;
   verbose := false |}.

(** Lines 28-39: the model is loaded once, when the module is
    executed; a failure leaves [llm = None]. *)
Definition startup : M server event unit :=
print (lit "Loading model from " ++ MODEL_PATH ++ lit "...");;
try_except
  (h ← emit (LoadModel llama_kwargs) (Llama_new llama_kwargs);
   put {| llm := Some h |};;
   print (lit "Model loaded successfully!"))
  (fun e =>
     print (lit "Error loading model: " ++ exn_str e);;
     put {| llm := None |}).

(** [llm.create_chat_completion(messages=..., max_tokens=...,
    temperature=..., top_p=...)] on the global handle. *)
Definition llm_create_chat_completion
    (messages : list message) (config : sampling)
  : M server event chat_response :=
  st ← get;
  match llm st with
  | None =>
      raise (PyError "AttributeError"
               (lit "'NoneType' object has no attribute 'create_chat_completion'"))
  | Some h =>
      emit (ChatCompletion messages config)
           (create_chat_completion h messages config)
  end.

(** [response["choices"][0]["message"]["content"].strip()] *)
Definition first_content_stripped (response : chat_response)
  : M server event str :=
  match choices response with
  | [] => raise (PyError "IndexError" (lit "list index out of range"))
  | c :: _ =>
      match message_content c with
      | None =>
          raise (PyError "AttributeError"
                   (lit "'NoneType' object has no attribute 'strip'"))
      | Some text => mret (strip text)
      end
  end.

Definition autocomplete_prompt (base_sentence : str)
    (light_suggestions : list str) : str :=
  lit "
You are an AUTOCOMPLETE assistant.

Use ONLY these light_suggestions:
" ++ str_of_list light_suggestions ++ lit "

RULES:
- Continue the sentence EXACTLY from where it ends.
- Do NOT change the base sentence.
- ONLY use provided light_suggestions to autocomplete.
- ONLY natural color/tone language.
- ONLY autocomplete using the light_suggestions.

Complete: " ++ base_sentence ++ lit "
".

Definition autocomplete_messages (base_sentence : str)
    (light_suggestions : list str) : list message :=
  let prompt := autocomplete_prompt base_sentence light_suggestions in
  [ {| role := lit "system";
       content := lit "Autocomplete using ONLY the allowed suggestions." |};
    {| role := lit "user"; content := prompt |} ].

Definition autocomplete_sampling : sampling :=
  {| max_tokens := 20; temperature := 0.1; top_p := 0.9 |}.

Definition autocomplete_lightart (base_sentence : str)
    (light_suggestions : list str) : M server event str :=
  response ←
    llm_create_chat_completion
      (autocomplete_messages base_sentence light_suggestions)
      autocomplete_sampling;
  first_content_stripped response.

(** [GET /] *)
Definition root : M server event pyobj :=
  mret (PyDict
    [ (lit "message", PyStr (lit "LightArt Autocomplete API"));
      (lit "version", PyStr (lit "1.0.0"));
      (lit "endpoints", PyDict
         [ (lit "/autocomplete", PyStr (lit "POST - Generate text autocompletion"));
           (lit "/health", PyStr (lit "GET - Check API health status"));
           (lit "/docs", PyStr (lit "GET - Interactive API documentation")) ]) ]).

(** [GET /health] *)
Definition health_check : M server event pyobj :=
  st ← get;
  match llm st with
  | None =>
      raise (HTTPException 503 (lit "Model not loaded. Please check server logs."))
  | Some _ =>
      mret (PyDict
        [ (lit "status", PyStr (lit "healthy"));
          (lit "model_loaded", PyBool true);
          (lit "model_path", PyStr MODEL_PATH) ])
  end.

(** [POST /autocomplete] *)
Definition autocomplete (request : AutocompleteRequest)
  : M server event AutocompleteResponse :=
  st ← get;
  match llm st with
  | None =>
      raise (HTTPException 503 (lit "Model not loaded. Please restart the server."))
  | Some _ =>
      if is_empty (strip (sentence request))
      then raise (HTTPException 400 (lit "Sentence cannot be empty"))
      else
        try_except
          (completion ←
             autocomplete_lightart (sentence request) (suggestions request);
           let full_text :=
             strip (sentence request ++ lit " " ++ completion) in
           mret {| completion := completion; full_text := full_text |})
          (fun e =>
             raise (HTTPException 500
                      (lit "Error generating autocomplete: " ++ exn_str e)))
  end.

Definition refine_prompt (base_sentence : str)
    (light_suggestions : list str) : str :=
  lit "
You are a REFINE assistant.

Use ONLY these light_suggestions:
" ++ str_of_list light_suggestions ++ lit "

RULES:
- Continue the sentence EXACTLY from where it ends.
- Do NOT change the base sentence.
- ONLY use provided light_suggestions to refine.
- ONLY natural color/tone language.
- Generate approximately 12 words for the completion.
- ONLY refine using the light_suggestions.

Complete: " ++ base_sentence ++ lit "
".

Definition refine_messages (base_sentence : str)
    (light_suggestions : list str) : list message :=
  let prompt := refine_prompt base_sentence light_suggestions in
  [ {| role := lit "system";
       content := lit "Refine using ONLY the allowed suggestions. Generate approximately 12 words." |};
    {| role := lit "user"; content := prompt |} ].

Definition refine_sampling : sampling :=
  {| max_tokens := 50; temperature := 0.2; top_p := 0.9 |}.

Definition refine_lightart (base_sentence : str)
    (light_suggestions : list str) : M server event str :=
  response ←
    llm_create_chat_completion
      (refine_messages base_sentence light_suggestions)
      refine_sampling;
  first_content_stripped response.

(** [POST /refine] *)
Definition refine (request : AutocompleteRequest)
  : M server event AutocompleteResponse :=
  st ← get;
  match llm st with
  | None =>
      raise (HTTPException 503 (lit "Model not loaded. Please restart the server."))
  | Some _ =>
      if is_empty (strip (sentence request))
      then raise (HTTPException 400 (lit "Sentence cannot be empty"))
      else
        try_except
          (completion ←
             refine_lightart (sentence request) (suggestions request);
           let full_text :=
             strip (sentence request ++ lit " " ++ completion) in
           mret {| completion := completion; full_text := full_text |})
          (fun e =>
             raise (HTTPException 500
                      (lit "Error generating refinement: " ++ exn_str e)))
  end.

(** The routes of the application and what a request to each runs. *)
Inductive request : Type :=
| GetRoot
| GetHealth
| PostAutocomplete (body : AutocompleteRequest)
| PostRefine (body : AutocompleteRequest).

Inductive response : Type :=
| Json (body : pyobj)
| Completion (body : AutocompleteResponse).

Definition serve (r : request) : M server event response :=
  match r with
  | GetRoot => Json <$> root
  | GetHealth => Json <$> health_check
  | PostAutocomplete body => Completion <$> autocomplete body
  | PostRefine body => Completion <$> refine body
  end.

(** A sequence of requests served one after the other; a request that
    ends in an [HTTPException] does not stop the server. *)
Fixpoint serve_all (rs : list request) (st : server)
  : list (result response) * server * list event :=
  match rs with
  | [] => ([], st, [])
  | r :: rs' =>
      let '(out, st', t) := serve r st in
      let '(outs, st'', t') := serve_all rs' st' in
      (out :: outs, st'', t ++ t')
  end.

End Handlers.

End Main.

(** ** suggestionsPY.py *)

Module SuggestionsPY.

(** *** The schema (lines 25-57) *)

Definition SuggestionType : Type := str.

(** Exactly 4 suggestions, one for each main category. *)
Record MainSuggestions : Type :=
  { movie_style_suggestion : SuggestionType;
    mood_suggestion : SuggestionType;
    color_focus_suggestion : SuggestionType;
    other_main_suggestion : SuggestionType }.

(** The 4 main suggestions and the general suggestions. *)
Record CombinedSuggestions : Type :=
  { main_suggestions : MainSuggestions;
    normal_suggestions : list SuggestionType }.

(** The fields of [main_suggestions], in declaration order. *)
Definition main_fields (m : MainSuggestions) : list SuggestionType :=
  [ movie_style_suggestion m; mood_suggestion m;
    color_focus_suggestion m; other_main_suggestion m ].

(** Line 139: [len(result.normal_suggestions) + 4]. *)
Definition total_count (result : CombinedSuggestions) : nat :=
  length (normal_suggestions result) + 4.

(** *** Validation of decoded JSON against the schema

    What [model_validate] does with the declarations above on an object
    built by a JSON decoder: every field is required ([Field(...)]), a
    [SuggestionType] accepts a string only, a nested model accepts a
    dictionary, [conlist(SuggestionType, min_length=15, max_length=15)]
    accepts a list of strings of that length, and keys that are not
    fields are ignored. *)

Definition validation_error (loc msg : string) : exn :=
  PyError "ValidationError" (lit loc ++ lit ": " ++ lit msg).

#[global] Instance result_ret : MRet result := fun A a => Ok a.
#[global] Instance result_bind : MBind result :=
  fun A B f r => match r with Ok a => f a | Raise e => Raise e end.

Definition required (loc : string) (items : list (str * pyobj))
  : result pyobj :=
  match dict_get (lit loc) items with
  | Some v => Ok v
  | None => Raise (validation_error loc "Field required")
  end.

Definition validate_str (loc : string) (v : pyobj) : result str :=
  match v with
  | PyStr s => Ok s
  | _ => Raise (validation_error loc "Input should be a valid string")
  end.

Fixpoint validate_strs (loc : string) (l : list pyobj) : result (list str) :=
  match l with
  | [] => Ok []
  | v :: l' =>
      s ← validate_str loc v;
      ss ← validate_strs loc l';
      mret (s :: ss)
  end.

(** [conlist(item, min_length, max_length)] *)
Definition validate_conlist (loc : string) (min_length max_length : nat)
    (v : pyobj) : result (list str) :=
  match v with
  | PyList l =>
      if length l <? min_length
      then Raise (validation_error loc "List should have at least min_length items")
      else if max_length <? length l
      then Raise (validation_error loc "List should have at most max_length items")
      else validate_strs loc l
  | _ => Raise (validation_error loc "Input should be a valid list")
  end.

Definition MainSuggestions_model_validate (obj : pyobj)
  : result MainSuggestions :=
  match obj with
  | PyDict items =>
      a ← required "movie_style_suggestion" items
            ≫= validate_str "movie_style_suggestion";
      b ← required "mood_suggestion" items
            ≫= validate_str "mood_suggestion";
      c ← required "color_focus_suggestion" items
            ≫= validate_str "color_focus_suggestion";
      d ← required "other_main_suggestion" items
            ≫= validate_str "other_main_suggestion";
      mret {| movie_style_suggestion := a; mood_suggestion := b;
              color_focus_suggestion := c; other_main_suggestion := d |}
  | _ =>
      Raise (validation_error "main_suggestions"
               "Input should be a valid dictionary or instance of MainSuggestions")
  end.

Definition CombinedSuggestions_model_validate (obj : pyobj)
  : result CombinedSuggestions :=
  match obj with
  | PyDict items =>
      m ← required "main_suggestions" items
            ≫= MainSuggestions_model_validate;
      n ← required "normal_suggestions" items
            ≫= validate_conlist "normal_suggestions" 15 15;
      mret {| main_suggestions := m; normal_suggestions := n |}
  | _ =>
      Raise (validation_error "CombinedSuggestions"
               "Input should be a valid dictionary or instance of CombinedSuggestions")
  end.

(** *** Setup (lines 13-23) and the pipeline (lines 59-121) *)

(** The keyword arguments of [ChatGoogleGenerativeAI(...)]; [None] is an
    argument that is not passed. *)
Record gemini_args : Type :=
  { model : str;
    google_api_key : option str;
    temperature : option float;
    top_p : option float;
    top_k : option Z;
    max_output_tokens : option Z }.

(** Lines 20-23: only the model name and the key are given. *)
Definition gemini (API_KEY : option str) : gemini_args :=
  {| model := lit "gemini-2.5-pro";
     google_api_key := API_KEY;
     temperature := None;
     top_p := None;
     top_k := None;
     max_output_tokens := None |}.

(** The message sent: a text part and an image part. *)
Record message : Type :=
  { role : str; text : str; image_url : str }.

(** The [content] attribute of the reply, a string or a list of parts. *)
Inductive content_value : Type :=
| ContentStr (s : str)
| ContentParts (parts : list pyobj).

(** The reply of [gemini.invoke]: its [content] attribute, if it has
    one, and its [str(resp)]. *)
Record reply : Type :=
  { content : option content_value; reply_str : str }.

Inductive event : Type :=
| Print (text : str)
| Invoke (client : gemini_args) (messages : list message)
| ParserParse (text : str)
| JsonLoads (text : str)
| ImageOpen (path : str).

(** The names bound in the module. *)
Inductive binding : Type :=
| BModule
| BClass
| BFunction
| BObject
| BStr (s : str)
| BOptStr (s : option str).

Abbreviation namespace := (gmap string binding).

Section Pipeline.

(** The collaborators: the image codec and base64, the remote model,
    the JSON decoding of langchain's parser and of [json.loads], and
    the format instructions the parser renders from the schema (the
    value of the global [format_instructions] when the function runs).
    [save_jpeg img quality] is [img.save(buf, format="JPEG",
    quality=quality)] followed by [buf.getvalue()]; it raises for an
    image that JPEG cannot hold, such as one in mode RGBA. *)
Variable Image : Type.
Variable save_jpeg : Image -> Z -> result (list N).
Variable b64encode : list N -> str.
Variable gemini_invoke : gemini_args -> list message -> result reply.
Variable parse_json_markdown : str -> result pyobj.
Variable json_loads : str -> result pyobj.
Variable format_instructions : str.
Variable API_KEY : option str.

Definition print (text : str) : M namespace event unit :=
  emit (Print text) (Ok tt).

(** [img.save(buf, format=fmt, quality=90)], which may raise, then the
    data URI. *)
Definition pil_to_data_uri (img : Image) : result str :=
  buf ← save_jpeg img 90;
  mret (lit "data:image/jpeg;base64," ++ b64encode buf).

(** [parser.parse(text)] for
    [parser = PydanticOutputParser(pydantic_object=CombinedSuggestions)]:
    the text is decoded to a JSON object, which is validated against
    the schema; either failure is an [OutputParserException]. *)
Definition parser_parse (text : str) : result CombinedSuggestions :=
  match parse_json_markdown text with
  | Raise e =>
      Raise (PyError "OutputParserException"
               (lit "Invalid json output: " ++ text))
  | Ok obj =>
      match CombinedSuggestions_model_validate obj with
      | Ok b => Ok b
      | Raise e =>
          Raise (PyError "OutputParserException"
                   (lit "Failed to parse CombinedSuggestions from completion. Got: "
                    ++ exn_str e))
      end
  end.

Definition prompt : str :=
  lit "Analyze the image carefully and return ONLY a single JSON object "
  ++ lit "containing exactly 4 main suggestions (one for each category: Movie Style, Mood, Color Focus, Other) "
  ++ lit "and exactly 15 general suggestions, all in natural human language." ++ [NL; NL]
  ++ lit "*STRICT FORMAT INSTRUCTIONS*:" ++ [NL]
  ++ format_instructions
  ++ [NL; NL]
  ++ lit "*RULES FOR ALL 19 SUGGESTIONS*:" ++ [NL]
  ++ lit "- The output MUST contain exactly one main_suggestions object with 4 fields, and one normal_suggestions list with exactly 15 elements." ++ [NL]
  ++ lit "- Keep each suggestion short and natural, as if a user wrote it." ++ [NL]
  ++ lit "- NO numbers, NO technical terms, NO percentages, NO stops." ++ [NL]
  ++ lit "- NO crop or composition instructions." ++ [NL]
  ++ lit "- Suggestions MUST relate only to exposure, contrast, tone, temperature, tint, "
  ++ lit "highlights, shadows, whites, blacks, saturation, vibrance, or general color feel." ++ [NL]
  ++ lit "- Style should match examples like:" ++ [NL]
  ++ lit "  " ++ [BULLET] ++ lit " Main: 'Give this photo a dark, cinematic grade like a Christopher Nolan film.'" ++ [NL]
  ++ lit "  " ++ [BULLET] ++ lit " Normal: 'Slightly reduce the overall exposure to add drama.'" ++ [NL].

(** Lines 109-110: the raw text of the reply. *)
Definition raw_of_reply (resp : reply) : str :=
  match content resp with
  | None => strip []
  | Some (ContentStr s) => strip s
  | Some (ContentParts _) => strip (reply_str resp)
  end.

(** Lines 112-113: the code fence is removed. *)
Definition normalize (raw : str) : str :=
  if startswith (lit "```") raw
  then strip (replace (lit "json") [] (strip_chars (lit "`") (strip raw)))
  else raw.

(** Lines 116-121: the parser, then the direct JSON load. *)
Definition parse_output (raw : str) : M namespace event CombinedSuggestions :=
  try_except
    (emit (ParserParse raw) (parser_parse raw))
    (fun e =>
       print (lit "Pydantic parsing failed: " ++ exn_str e
              ++ lit ". Attempting direct JSON load.");;
       obj ← emit (JsonLoads raw) (json_loads raw);
       lift (CombinedSuggestions_model_validate obj)).

(** Lines 97-103: the message. *)
Definition user_message (data_uri : str) : message :=
  {| role := lit "user"; text := prompt; image_url := data_uri |}.

Definition gemini_user_style_suggestions (image : Image)
  : M namespace event CombinedSuggestions :=
  data_uri ← lift (pil_to_data_uri image);
  let msg := user_message data_uri in
  resp ← emit (Invoke (gemini API_KEY) [msg])
              (gemini_invoke (gemini API_KEY) [msg]);
  let raw := raw_of_reply resp in
  let raw := normalize raw in
  parse_output raw.

(** *** The module body

    Executing the module binds its names one after the other; a name
    is looked up in the module globals, then in the builtins. *)

Variable image_open : str -> result Image.
Variable model_dump_json : CombinedSuggestions -> str.

Definition store (name : string) (b : binding) : M namespace event unit :=
  fun ns => (Ok tt, <[name := b]> ns, []).

Definition builtins : list string :=
  [ "ArithmeticError"; "AssertionError"; "AttributeError"; "BaseException";
    "BaseExceptionGroup"; "BlockingIOError"; "BrokenPipeError"; "BufferError";
    "BytesWarning"; "ChildProcessError"; "ConnectionAbortedError";
    "ConnectionError"; "ConnectionRefusedError"; "ConnectionResetError";
    "DeprecationWarning"; "EOFError"; "Ellipsis"; "EncodingWarning";
    "EnvironmentError"; "Exception"; "ExceptionGroup"; "False";
    "FileExistsError"; "FileNotFoundError"; "FloatingPointError";
    "FutureWarning"; "GeneratorExit"; "IOError"; "ImportError";
    "ImportWarning"; "IndentationError"; "IndexError"; "InterruptedError";
    "IsADirectoryError"; "KeyError"; "KeyboardInterrupt"; "LookupError";
    "MemoryError"; "ModuleNotFoundError"; "NameError"; "None";
    "NotADirectoryError"; "NotImplemented"; "NotImplementedError"; "OSError";
    "OverflowError"; "PendingDeprecationWarning"; "PermissionError";
    "ProcessLookupError"; "RecursionError"; "ReferenceError";
    "ResourceWarning"; "RuntimeError"; "RuntimeWarning";
    "StopAsyncIteration"; "StopIteration"; "SyntaxError"; "SyntaxWarning";
    "SystemError"; "SystemExit"; "TabError"; "TimeoutError"; "True";
    "TypeError"; "UnboundLocalError"; "UnicodeDecodeError";
    "UnicodeEncodeError"; "UnicodeError"; "UnicodeTranslateError";
    "UnicodeWarning"; "UserWarning"; "ValueError"; "Warning";
    "ZeroDivisionError"; "__build_class__"; "__debug__"; "__doc__";
    "__import__"; "__loader__"; "__name__"; "__package__"; "__spec__";
    "abs"; "aiter"; "all"; "anext"; "any"; "ascii"; "bin"; "bool";
    "breakpoint"; "bytearray"; "bytes"; "callable"; "chr"; "classmethod";
    "compile"; "complex"; "copyright"; "credits"; "delattr"; "dict"; "dir";
    "divmod"; "enumerate"; "eval"; "exec"; "exit"; "filter"; "float";
    "format"; "frozenset"; "getattr"; "globals"; "hasattr"; "hash"; "help";
    "hex"; "id"; "input"; "int"; "isinstance"; "issubclass"; "iter"; "len";
    "license"; "list"; "locals"; "map"; "max"; "memoryview"; "min"; "next";
    "object"; "oct"; "open"; "ord"; "pow"; "print"; "property"; "quit";
    "range"; "repr"; "reversed"; "round"; "set"; "setattr"; "slice";
    "sorted"; "staticmethod"; "str"; "sum"; "super"; "tuple"; "type";
    "vars"; "zip" ].

(** Evaluation of a name at module level. *)
Definition load_name (name : string) : M namespace event binding :=
  ns ← get;
  match ns !! name with
  | Some b => mret b
  | None =>
      if bool_decide (name ∈ builtins) then mret BObject
      else raise (PyError "NameError"
                    (lit "name '" ++ lit name ++ lit "' is not defined"))
  end.

(** [x == "literal"] for the value bound to a name. *)
Definition eq_str (b : binding) (s : str) : bool :=
  match b with
  | BStr s' => bool_decide (s' = s)
  | BOptStr (Some s') => bool_decide (s' = s)
  | _ => false
  end.

Definition exn_class (e : exn) : string :=
  match e with
  | HTTPException _ _ => "HTTPException"
  | PyError cls _ => cls
  end.

(** Lines 126-148: the example run. *)
Definition example_use : M namespace event unit :=
  try_except
    (let image_path :=
       lit "/home/logan78/Desktop/autocompletion_local/images/cityline.jpg" in
     store "image_path" (BStr image_path);;
     print (lit "Attempting to load image from: " ++ image_path);;
     img ← emit (ImageOpen image_path) (image_open image_path);
     store "img" BObject;;
     print ([NL] ++ lit "--- Generating 4 Main + 15 Normal Suggestions ---");;
     result ← gemini_user_style_suggestions img;
     store "result" BObject;;
     print (model_dump_json result);;
     let total := total_count result in
     store "total_count" BObject;;
     print ([NL] ++ lit "Total suggestions generated: " ++ lit (pretty total)
            ++ lit " (4 Main + 15 Normal)"))
    (fun e =>
       if bool_decide (exn_class e = "FileNotFoundError") then
         print ([NL] ++ lit "ERROR: Image file not found.");;
         print (lit "Please replace the placeholder path in image_path with a real image path on your system.")
       else if bool_decide (exn_class e ∈ ["RuntimeError"; "NotImplementedError"; "RecursionError"]) then
         store "e" BObject;;
         print ([NL] ++ lit "Runtime Error: " ++ exn_str e)
       else
         store "e" BObject;;
         print ([NL] ++ lit "An unexpected error occurred during execution: "
                ++ exn_str e)).

(** Line 125: [_name_ == "_main_"]. *)
Definition guard : M namespace event bool :=
  b ← load_name "_name_";
  mret (eq_str b (lit "_main_")).

(** The names a module has before its first statement runs; [name] is
    ["__main__"] for a script and the module name for an import. *)
Definition initial_namespace (name : str) : namespace :=
  list_to_map
    [ ("__name__", BStr name); ("__doc__", BObject);
      ("__package__", BObject); ("__loader__", BObject);
      ("__spec__", BObject); ("__file__", BObject);
      ("__cached__", BObject); ("__builtins__", BModule) ].

(** What executing the module asks of its environment before the guard:
    finding the imported modules, [load_dotenv()], the construction of
    the client (which raises without an API key), the creation of the two
    pydantic classes, the construction of the parser and the rendering of
    its format instructions.  Each of them may raise. *)
Variable find_module : string -> result unit.
Variable load_dotenv : result bool.
Variable ChatGoogleGenerativeAI_new : gemini_args -> result unit.
Variable BaseModel_new : string -> result unit.
Variable PydanticOutputParser_new : result unit.
Variable get_format_instructions : result str.

(** Lines 1-121: everything the module executes before the guard. *)
Definition module_prefix : M namespace event unit :=
  lift (find_module "os");; store "os" BModule;;
  lift (find_module "io");; store "io" BModule;;
  lift (find_module "base64");; store "base64" BModule;;
  lift (find_module "json");; store "json" BModule;;
  lift (find_module "dotenv");; store "load_dotenv" BFunction;;
  lift (find_module "PIL");; store "Image" BModule;;
  lift (find_module "typing");;
  store "List" BObject;; store "Optional" BObject;;
  lift (find_module "pydantic");;
  store "BaseModel" BClass;; store "Field" BFunction;;
  store "conlist" BFunction;;
  lift (find_module "langchain_google_genai");;
  store "ChatGoogleGenerativeAI" BClass;;
  lift (find_module "langchain.output_parsers");;
  store "PydanticOutputParser" BClass;;
  lift load_dotenv;;
  store "API_KEY" (BOptStr API_KEY);;
  lift (ChatGoogleGenerativeAI_new (gemini API_KEY));;
  store "gemini" BObject;;
  store "SuggestionType" BClass;;
  lift (BaseModel_new "MainSuggestions");;
  store "MainSuggestions" BClass;;
  lift (BaseModel_new "CombinedSuggestions");;
  store "CombinedSuggestions" BClass;;
  lift PydanticOutputParser_new;;
  store "parser" BObject;;
  instructions ← lift get_format_instructions;
  store "format_instructions" (BStr instructions);;
  store "pil_to_data_uri" BFunction;;
  store "gemini_user_style_suggestions" BFunction.

(** The whole module: the statements above, then the guard of line 125
    and the example it protects. *)
Definition module_body : M namespace event unit :=
  module_prefix;;
  b ← guard;
  if (b : bool) then example_use else mret tt.

(** [from suggestionsPY import name]: the module is executed in a fresh
    namespace; when that raises, the import raises the same error and
    nothing is obtained from the module. *)
Definition import_from (name : string) : result binding :=
  match module_body (initial_namespace (lit "suggestionsPY")) with
  | (Ok _, ns, _) =>
      match ns !! name with
      | Some b => Ok b
      | None =>
          Raise (PyError "ImportError"
                   (lit "cannot import name '" ++ lit name ++ lit "'"))
      end
  | (Raise e, _, _) => Raise e
  end.

End Pipeline.

End SuggestionsPY.

(** ** The vocabulary of the specification *)

Module Spec.

(** The error conditions of the text endpoints. *)
Definition ModelUnavailable : exn :=
  HTTPException 503 (lit "Model not loaded. Please restart the server.").
Definition ModelUnavailable_health : exn :=
  HTTPException 503 (lit "Model not loaded. Please check server logs.").
Definition InvalidInput : exn :=
  HTTPException 400 (lit "Sentence cannot be empty").

Definition status (e : exn) : option Z :=
  match e with
  | HTTPException code _ => Some code
  | PyError _ _ => None
  end.

(** The model answers the call with [text] as the content of its first
    choice. *)
Definition model_returns (h : Main.Llama) (messages : list Main.message)
    (config : Main.sampling) (text : str) : Prop :=
  exists rest,
    Main.create_chat_completion h messages config
    = Ok {| Main.choices :=
              {| Main.message_content := Some text |} :: rest |}.

(** [fullText] in the words of the specification: trimmed base sentence,
    a single space, trimmed completion, the whole trimmed. *)
Definition spec_full_text (base_sentence completion : str) : str :=
  strip (strip base_sentence ++ lit " " ++ strip completion).

(** The model calls of a trace. *)
Definition is_model_call (ev : Main.event) : bool :=
  match ev with
  | Main.ChatCompletion _ _ => true
  | _ => false
  end.

Definition model_calls (t : list Main.event) : nat :=
  length (filter (fun ev => is_model_call ev = true) t).

(** An event that, if it is a model call, is made with the given sampling
    options. *)
Definition sampled_with (max_tokens : Z) (temperature top_p : float)
  (ev : Main.event) : Prop :=
match ev with
| Main.ChatCompletion _ config =>
    Main.max_tokens config = max_tokens
    /\ Main.temperature config = temperature
    /\ Main.top_p config = top_p
| _ => True
end.

(** A temperature in the range 0.1 - 0.2. *)
Definition low_temperature (t : float) : bool :=
(0.1 <=? t)%float && (t <=? 0.2)%float.

(** The response to a request, when the model is not loaded: every entry
    point of the pipeline answers 503; [GET /] is static metadata. *)
Definition unavailable_response (r : Main.request)
  (out : result Main.response) : Prop :=
match r with
| Main.GetRoot => True
| Main.GetHealth => out = Raise ModelUnavailable_health
| Main.PostAutocomplete _ | Main.PostRefine _ => out = Raise ModelUnavailable
end.

(** What the response assembler builds from the sentence as given and the
    completion: see the properties for the cases. *)
Definition assembled (base_sentence completion full : str) : Prop :=
full = strip (base_sentence ++ lit " " ++ completion)
/\ (completion = [] -> full = strip base_sentence)
/\ (completion <> [] -> full = lstrip base_sentence ++ lit " " ++ completion)
/\ (rstrip base_sentence = base_sentence ->
    full = strip (strip base_sentence ++ lit " " ++ strip completion)).

(** The fallback of the schema validator: a raw JSON decode of the text,
    then the coercion into [CombinedSuggestions]. *)
Definition fallback (json_loads : str -> result pyobj) (text : str)
  : result SuggestionsPY.CombinedSuggestions :=
  match json_loads text with
  | Ok obj => SuggestionsPY.CombinedSuggestions_model_validate obj
  | Raise e => Raise e
  end.

(** An event that, if it is a call of the remote model, goes through the
    given client. *)
Definition invoked_with (client : SuggestionsPY.gemini_args)
  (ev : SuggestionsPY.event) : Prop :=
match ev with
| SuggestionsPY.Invoke c _ => c = client
| _ => True
end.

(** A module-level computation that performs no recorded action and does
    not bind [_name_]. *)
Definition quiet {A : Type}
  (m : M SuggestionsPY.namespace SuggestionsPY.event A) : Prop :=
forall ns,
  trace (m ns) = [] /\ final (m ns) !! "_name_" = ns !! "_name_".

(** A module-level computation that, when it ends normally, leaves [name]
    bound to [b]. *)
Definition defines (name : string) (b : SuggestionsPY.binding)
  (m : M SuggestionsPY.namespace SuggestionsPY.event unit) : Prop :=
forall ns, outcome (m ns) = Ok tt -> final (m ns) !! name = Some b.

(** The error of reading the unbound name [_name_]. *)
Definition NameError_name : exn :=
PyError "NameError" (lit "name '_name_' is not defined").

(** What a handler may answer: a response, or an [HTTPException] with one
    of the three statuses of the endpoints. *)
Definition http_outcome (out : result Main.AutocompleteResponse) : Prop :=
match out with
| Ok _ => True
| Raise (HTTPException code _) => code = 503%Z \/ code = 400%Z \/ code = 500%Z
| Raise (PyError _ _) => False
end.

(** The model calls a request is allowed: one when the model is loaded and
    the sentence is not blank, none otherwise. *)
Definition expected_calls (st : Main.server)
  (request : Main.AutocompleteRequest) : nat :=
match Main.llm st with
| Some _ => if is_empty (strip (Main.sentence request)) then 0 else 1
| None => 0
end.

(** The requests of a sequence that go to /autocomplete or /refine. *)
Definition is_post (r : Main.request) : bool :=
match r with
| Main.PostAutocomplete _ | Main.PostRefine _ => true
| _ => false
end.

Definition posts (rs : list Main.request) : nat :=
length (filter (fun r => is_post r = true) rs).

(** The calls of the remote model in a trace of the image pipeline. *)
Definition is_invoke (ev : SuggestionsPY.event) : bool :=
match ev with
| SuggestionsPY.Invoke _ _ => true
| _ => false
end.

Definition invokes (t : list SuggestionsPY.event) : nat :=
length (filter (fun ev => is_invoke ev = true) t).

(** An event that, if it hands a text to a decoder, hands it [text]. *)
Definition decodes (text : str) (ev : SuggestionsPY.event) : Prop :=
match ev with
| SuggestionsPY.ParserParse t | SuggestionsPY.JsonLoads t => t = text
| _ => True
end.

(** The object a bundle is decoded from must look like this: the four
    main fields and the general suggestions as strings, under their
    names, whatever else the dictionaries hold. *)
Definition holds_bundle (obj : pyobj) (b : SuggestionsPY.CombinedSuggestions)
  : Prop :=
exists items mitems,
  obj = PyDict items
  /\ dict_get (lit "main_suggestions") items = Some (PyDict mitems)
  /\ dict_get (lit "movie_style_suggestion") mitems
     = Some (PyStr (SuggestionsPY.movie_style_suggestion
                      (SuggestionsPY.main_suggestions b)))
  /\ dict_get (lit "mood_suggestion") mitems
     = Some (PyStr (SuggestionsPY.mood_suggestion
                      (SuggestionsPY.main_suggestions b)))
  /\ dict_get (lit "color_focus_suggestion") mitems
     = Some (PyStr (SuggestionsPY.color_focus_suggestion
                      (SuggestionsPY.main_suggestions b)))
  /\ dict_get (lit "other_main_suggestion") mitems
     = Some (PyStr (SuggestionsPY.other_main_suggestion
                      (SuggestionsPY.main_suggestions b)))
  /\ dict_get (lit "normal_suggestions") items
     = Some (PyList (map PyStr (SuggestionsPY.normal_suggestions b)))
  /\ length (SuggestionsPY.normal_suggestions b) = 15.

(** A JSON object whose [normal_suggestions] is a list of [n] elements. *)
Definition normal_count (n : nat) (obj : pyobj) : Prop :=
  exists items l,
    obj = PyDict items
    /\ dict_get (lit "normal_suggestions") items = Some (PyList l)
    /\ length l = n.

End Spec.

(** ** Test doubles

    Stand-ins for the collaborators, as a test of the handlers would mock
    them. *)

Module Mock.

(** A model that answers every call with [text]. *)
Definition llama (text : str) : Main.Llama :=
  {| Main.create_chat_completion := fun _ _ =>
       Ok {| Main.choices := [ {| Main.message_content := Some text |} ] |} |}.

(** A model whose every call fails. *)
Definition llama_failing (e : exn) : Main.Llama :=
{| Main.create_chat_completion := fun _ _ => Raise e |}.

(** A model that answers without a choice, and one whose first choice has
    no content. *)
Definition llama_no_choice : Main.Llama :=
{| Main.create_chat_completion := fun _ _ => Ok {| Main.choices := [] |} |}.

Definition llama_no_content : Main.Llama :=
{| Main.create_chat_completion := fun _ _ =>
     Ok {| Main.choices := [ {| Main.message_content := None |} ] |} |}.

Definition out_of_memory : exn :=
PyError "RuntimeError" (lit "llama_decode returned 1").

(** A remote model that cannot be reached. *)
Definition gemini_down (client : SuggestionsPY.gemini_args)
  (messages : list SuggestionsPY.message) : result SuggestionsPY.reply :=
Raise (PyError "ConnectionError" (lit "Failed to reach the model")).

(** An image that JPEG cannot hold, as one in mode RGBA. *)
Definition save_rgba (img : unit) (quality : Z) : result (list N) :=
Raise (PyError "OSError" (lit "cannot write mode RGBA as JPEG")).

(** An environment in which every statement before the guard succeeds. *)
Definition find_module (name : string) : result unit := Ok tt.
Definition new_client (client : SuggestionsPY.gemini_args) : result unit :=
match SuggestionsPY.google_api_key client with
| Some _ => Ok tt
| None => Raise (PyError "ValidationError" (lit "API key required"))
end.
Definition new_model (name : string) : result unit := Ok tt.

(** An image file that is not there. *)
Definition image_missing (path : str) : result unit :=
Raise (PyError "FileNotFoundError" (lit "No such file or directory")).

(** A model file that cannot be loaded. *)
Definition Llama_missing (args : Main.llama_args) : result Main.Llama :=
  Raise (PyError "ValueError"
           (lit "Model path does not exist: " ++ Main.model_path args)).

(** [sep.join(l)] *)
Fixpoint join (sep : str) (l : list str) : str :=
match l with
| [] => []
| [x] => x
| x :: l' => x ++ sep ++ join sep l'
end.

(** [str()] of a list of strings that need no escaping. *)
Definition str_of_list (l : list str) : str :=
lit "[" ++ join (lit ", ") (map (fun s => lit "'" ++ s ++ lit "'") l)
++ lit "]".

(** A JSON decoder that knows the texts of a table and rejects all
    others. *)
Fixpoint decode (table : list (str * pyobj)) (text : str) : result pyobj :=
  match table with
  | [] => Raise (PyError "JSONDecodeError" (lit "Expecting value"))
  | (t, obj) :: table' =>
      if bool_decide (t = text) then Ok obj else decode table' text
  end.

(** A remote model that answers every request with [text]. *)
Definition gemini_invoke (text : str) (client : SuggestionsPY.gemini_args)
    (messages : list SuggestionsPY.message) : result SuggestionsPY.reply :=
  Ok {| SuggestionsPY.content := Some (SuggestionsPY.ContentStr text);
        SuggestionsPY.reply_str := text |}.

Definition suggestion_list (n : nat) : list pyobj :=
  repeat (PyStr (lit "Slightly reduce the overall exposure to add drama.")) n.

(** A decoded reply with [n] general suggestions. *)
Definition bundle_object (n : nat) : pyobj :=
  PyDict
    [ (lit "main_suggestions", PyDict
         [ (lit "movie_style_suggestion", PyStr (lit "Give it the look of a 70s Western film"));
           (lit "mood_suggestion", PyStr (lit "Inject a strong sense of serenity and calm"));
           (lit "color_focus_suggestion", PyStr (lit "Emphasize the deep, cool blue tones throughout the image"));
           (lit "other_main_suggestion", PyStr (lit "Apply a classic portrait finish")) ]);
      (lit "normal_suggestions", PyList (suggestion_list n)) ].

(** The bundle that [bundle_object 15] validates to. *)
Definition bundle : SuggestionsPY.CombinedSuggestions :=
{| SuggestionsPY.main_suggestions :=
     {| SuggestionsPY.movie_style_suggestion := lit "Give it the look of a 70s Western film";
        SuggestionsPY.mood_suggestion := lit "Inject a strong sense of serenity and calm";
        SuggestionsPY.color_focus_suggestion := lit "Emphasize the deep, cool blue tones throughout the image";
        SuggestionsPY.other_main_suggestion := lit "Apply a classic portrait finish" |};
   SuggestionsPY.normal_suggestions :=
     repeat (lit "Slightly reduce the overall exposure to add drama.") 15 |}.

Definition quoted (s : str) : str := [DQ] ++ s ++ [DQ].

(** The JSON text of [bundle_object n]. *)
Definition bundle_text (n : nat) : str :=
lit "{" ++ quoted (lit "main_suggestions") ++ lit ": {"
++ quoted (lit "movie_style_suggestion") ++ lit ": "
++ quoted (lit "Give it the look of a 70s Western film") ++ lit ", "
++ quoted (lit "mood_suggestion") ++ lit ": "
++ quoted (lit "Inject a strong sense of serenity and calm") ++ lit ", "
++ quoted (lit "color_focus_suggestion") ++ lit ": "
++ quoted (lit "Emphasize the deep, cool blue tones throughout the image") ++ lit ", "
++ quoted (lit "other_main_suggestion") ++ lit ": "
++ quoted (lit "Apply a classic portrait finish") ++ lit "}, "
++ quoted (lit "normal_suggestions") ++ lit ": ["
++ concat (repeat (quoted (lit "Slightly reduce the overall exposure to add drama.")
                   ++ lit ", ") (n - 1))
++ quoted (lit "Slightly reduce the overall exposure to add drama.")
++ lit "]}".

(** A reply wrapped in a code fence. *)
Definition fenced (text : str) : str :=
lit "```json" ++ [NL] ++ text ++ [NL] ++ lit "```".

(** A decoder that knows the two bundle texts. *)
Definition decode_bundles : str -> result pyobj :=
decode [ (bundle_text 15, bundle_object 15);
         (bundle_text 14, bundle_object 14) ].

(** The pipeline run against a remote model that answers [text]. *)
Definition pipeline (text : str)
  : M SuggestionsPY.namespace SuggestionsPY.event
      SuggestionsPY.CombinedSuggestions :=
SuggestionsPY.gemini_user_style_suggestions unit (fun _ _ => Ok [])
  (fun _ => []) (gemini_invoke text) decode_bundles decode_bundles
  (lit "The output should be formatted as a JSON instance.") None tt.

(** The small JSON texts of the normalizer examples: an object with one
    key, [{"a":1}] for the key [a]. *)
Definition object_text (key : str) : str :=
lit "{" ++ quoted key ++ lit ":1}".

(** A request with a blank sentence, one with a trailing space and one
    with none. *)
Definition blank_request : Main.AutocompleteRequest :=
{| Main.sentence := lit "   ";
   Main.suggestions := [lit "warm amber glow"] |}.

Definition typing_request : Main.AutocompleteRequest :=
{| Main.sentence := lit "soften the overall ";
   Main.suggestions := [lit "warm amber glow"] |}.

Definition plain_request : Main.AutocompleteRequest :=
{| Main.sentence := lit "soften the overall";
   Main.suggestions := [lit "warm amber glow"] |}.

End Mock.

(** * Properties *)

(** ** Stripping *)

Section Strip.

Variable p : codepoint -> bool.

Lemma lstrip_with_suffix (s : str) :
  exists w, s = w ++ lstrip_with p s /\ forallb p w = true.
Proof.
  induction s as [|c s [w [Hw Hp]]]; simpl.
  - exists []; auto.
  - destruct (p c) eqn:Hc.
    + exists (c :: w); simpl. rewrite Hc, Hp. split; [congruence|reflexivity].
    + exists []; auto.
Qed.

Lemma lstrip_with_head (s r : str) (c : codepoint) :
  lstrip_with p s = c :: r -> p c = false.
Proof.
  induction s as [|a s IH]; simpl; [discriminate|].
  destruct (p a) eqn:Ha; auto.
  intros [= -> _]. exact Ha.
Qed.

Lemma lstrip_with_keep (s : str) (c : codepoint) :
  p c = false -> lstrip_with p (c :: s) = c :: s.
Proof. intros H; simpl; now rewrite H. Qed.

Lemma lstrip_with_app (s t : str) :
  lstrip_with p s <> [] -> lstrip_with p (s ++ t) = lstrip_with p s ++ t.
Proof.
  induction s as [|a s IH]; simpl; [congruence|].
  destruct (p a); auto.
Qed.

Lemma lstrip_with_app_nil (s t : str) :
  lstrip_with p s = [] -> lstrip_with p (s ++ t) = lstrip_with p t.
Proof.
  induction s as [|a s IH]; simpl; auto.
  destruct (p a); [auto|discriminate].
Qed.

Lemma lstrip_with_idem (s : str) :
  lstrip_with p (lstrip_with p s) = lstrip_with p s.
Proof.
  destruct (lstrip_with p s) as [|c r] eqn:E; auto.
  apply lstrip_with_keep. eapply lstrip_with_head; eauto.
Qed.

Lemma rstrip_with_prefix (s : str) :
  exists w, s = rstrip_with p s ++ w /\ forallb p w = true.
Proof.
  unfold rstrip_with.
  destruct (lstrip_with_suffix (rev s)) as [w [Hw Hp]].
  exists (rev w). split.
  - rewrite <- rev_app_distr, <- Hw. now rewrite rev_involutive.
  - rewrite forallb_forall in *. intros x Hx. apply Hp.
    now apply in_rev.
Qed.

Lemma rstrip_with_app (s t : str) :
  rstrip_with p t <> [] -> rstrip_with p (s ++ t) = s ++ rstrip_with p t.
Proof.
  unfold rstrip_with. intros H.
  rewrite rev_app_distr, lstrip_with_app.
  - now rewrite rev_app_distr, rev_involutive.
  - intros E. apply H. now rewrite E.
Qed.

Lemma rstrip_with_app_nil (s t : str) :
  rstrip_with p t = [] -> rstrip_with p (s ++ t) = rstrip_with p s.
Proof.
  unfold rstrip_with. intros H.
  rewrite rev_app_distr, lstrip_with_app_nil; auto.
  apply (f_equal (@rev _)) in H. now rewrite rev_involutive in H.
Qed.

Lemma rstrip_with_fixed (w u : str) :
rstrip_with p (w ++ u) = w ++ u -> rstrip_with p u = u.
Proof.
intros H. destruct (rstrip_with p u) as [|c r] eqn:E.
- rewrite rstrip_with_app_nil in H by assumption.
  destruct (rstrip_with_prefix w) as [v [Hv _]].
  rewrite H in Hv. apply (f_equal (@length _)) in Hv.
  rewrite !length_app in Hv.
  destruct u; [reflexivity | simpl in Hv; lia].
- rewrite rstrip_with_app in H by congruence.
  apply app_inv_head in H. congruence.
Qed.

Lemma rstrip_with_idem (s : str) :
  rstrip_with p (rstrip_with p s) = rstrip_with p s.
Proof.
  unfold rstrip_with. now rewrite rev_involutive, lstrip_with_idem.
Qed.

(** Removing a suffix never uncovers a strippable head. *)
Lemma lstrip_with_rstrip_with (s : str) :
  lstrip_with p (rstrip_with p (lstrip_with p s))
  = rstrip_with p (lstrip_with p s).
Proof.
  destruct (lstrip_with p s) as [|c r] eqn:E; [reflexivity|].
  pose proof (lstrip_with_head _ _ _ E) as Hc.
  destruct (rstrip_with_prefix (c :: r)) as [w [Hw Hp]].
  destruct (rstrip_with p (c :: r)) as [|c' r'] eqn:E'; [reflexivity|].
  simpl in Hw. injection Hw as <- _.
  now apply lstrip_with_keep.
Qed.

Lemma strip_with_idem (s : str) :
  strip_with p (strip_with p s) = strip_with p s.
Proof.
  unfold strip_with. now rewrite lstrip_with_rstrip_with, rstrip_with_idem.
Qed.

Lemma strip_with_lstrip_nil (s : str) :
  strip_with p s = [] -> lstrip_with p s = [].
Proof.
  unfold strip_with. intros H.
  destruct (lstrip_with p s) as [|c r] eqn:E; [reflexivity|].
  pose proof (lstrip_with_head _ _ _ E) as Hc.
  unfold rstrip_with in H.
  apply (f_equal (@rev _)) in H. rewrite rev_involutive in H. simpl in H.
  rewrite lstrip_with_app_nil in H.
  - simpl in H. now rewrite Hc in H.
  - destruct (lstrip_with p (rev r)) eqn:E2; auto.
    rewrite lstrip_with_app in H by congruence.
    rewrite E2 in H. discriminate.
Qed.

(** The stripped string is a prefix of what stripping gives after
    anything is appended. *)
Lemma strip_with_app_prefix (s t : str) :
  exists w, strip_with p (s ++ t) = strip_with p s ++ w.
Proof.
  unfold strip_with.
  destruct (lstrip_with p s) as [|c r] eqn:E.
  - eexists; reflexivity.
  - rewrite lstrip_with_app by congruence. rewrite E.
    destruct (rstrip_with p t) as [|c' r'] eqn:Et.
    + exists []. rewrite rstrip_with_app_nil by assumption.
      now rewrite app_nil_r.
    + rewrite rstrip_with_app by congruence.
      destruct (rstrip_with_prefix (c :: r)) as [w [Hw _]].
      exists (w ++ rstrip_with p t).
      rewrite Et, app_assoc, <- Hw. reflexivity.
Qed.

(** Appending one strippable code point changes nothing. *)
Lemma strip_with_snoc (s : str) (c : codepoint) :
  p c = true -> strip_with p (s ++ [c]) = strip_with p s.
Proof.
  intros Hc. unfold strip_with.
  assert (Hn : rstrip_with p [c] = []).
  { unfold rstrip_with; simpl. now rewrite Hc. }
  destruct (lstrip_with p s) as [|a r] eqn:E.
  - rewrite lstrip_with_app_nil by assumption. simpl. now rewrite Hc.
  - rewrite lstrip_with_app by congruence. rewrite E.
    now apply rstrip_with_app_nil.
Qed.

(** A stripped, non-empty tail protects everything before it. *)
Lemma strip_with_app_stripped (s t : str) (c : codepoint) :
  lstrip_with p s <> [] -> strip_with p t <> [] ->
  strip_with p (s ++ c :: strip_with p t)
  = lstrip_with p s ++ c :: strip_with p t.
Proof.
  intros Hs Ht. unfold strip_with at 1.
  rewrite lstrip_with_app by assumption.
  replace (lstrip_with p s ++ c :: strip_with p t)
    with ((lstrip_with p s ++ [c]) ++ strip_with p t)
    by now rewrite <- app_assoc.
  rewrite rstrip_with_app.
  - unfold strip_with. now rewrite rstrip_with_idem.
  - unfold strip_with in *. now rewrite rstrip_with_idem.
Qed.

Lemma lstrip_with_all (a s : str) :
forallb p a = true -> lstrip_with p (a ++ s) = lstrip_with p s.
Proof.
induction a as [|c a IH]; simpl; [reflexivity|].
intros H. apply andb_prop in H as [-> H]. now apply IH.
Qed.

Lemma rstrip_with_all (s b : str) :
forallb p b = true -> rstrip_with p (s ++ b) = rstrip_with p s.
Proof.
intros H. unfold rstrip_with. rewrite rev_app_distr, lstrip_with_all; auto.
rewrite forallb_forall in *. intros x Hx. apply H. now apply in_rev.
Qed.

(** Strippable code points around a string do not change what is left. *)
Lemma strip_with_around (a s b : str) :
forallb p a = true -> forallb p b = true ->
strip_with p (a ++ s ++ b) = strip_with p s.
Proof.
intros Ha Hb. unfold strip_with. rewrite lstrip_with_all by assumption.
destruct (lstrip_with p s) as [|c r] eqn:E.
- rewrite lstrip_with_app_nil by assumption.
  rewrite <- (app_nil_r b), lstrip_with_all by assumption. reflexivity.
- rewrite lstrip_with_app by congruence. rewrite E.
  now apply rstrip_with_all.
Qed.

(** A string that starts and ends with code points that are kept is
    left as it is. *)
Lemma strip_with_kept (c d : codepoint) (m : str) :
p c = false -> p d = false ->
strip_with p (c :: m ++ [d]) = c :: m ++ [d].
Proof.
intros Hc Hd. unfold strip_with. rewrite lstrip_with_keep by assumption.
unfold rstrip_with.
change (c :: m ++ [d]) with ((c :: m) ++ [d]).
rewrite rev_app_distr. cbn [rev app].
rewrite lstrip_with_keep by assumption.
change (d :: rev m ++ [c]) with ([d] ++ rev (c :: m)).
now rewrite rev_app_distr, rev_involutive.
Qed.

Lemma strip_with_fixed (s : str) :
strip_with p s = s -> lstrip_with p s = s /\ rstrip_with p s = s.
Proof.
intros H.
assert (Hl : lstrip_with p s = s).
{ rewrite <- H at 1. unfold strip_with at 1.
  rewrite lstrip_with_rstrip_with. exact H. }
split; [exact Hl|]. unfold strip_with in H. now rewrite Hl in H.
Qed.

(** A stripped, non-empty tail and a kept head protect what is between. *)
Lemma strip_with_kept_tail (c : codepoint) (m s : str) :
p c = false -> s <> [] -> strip_with p s = s ->
strip_with p (c :: m ++ s) = c :: m ++ s.
Proof.
intros Hc Hs H. apply strip_with_fixed in H as [_ Hr].
unfold strip_with. rewrite lstrip_with_keep by assumption.
change (c :: m ++ s) with ((c :: m) ++ s).
rewrite rstrip_with_app; rewrite Hr; auto.
Qed.

Lemma length_lstrip_with (s : str) : length (lstrip_with p s) <= length s.
Proof.
induction s as [|c s IH]; simpl; [lia|]. destruct (p c); simpl; lia.
Qed.

Lemma length_strip_with (s : str) : length (strip_with p s) <= length s.
Proof.
unfold strip_with, rstrip_with. rewrite length_rev.
etransitivity; [apply length_lstrip_with|]. rewrite length_rev.
apply length_lstrip_with.
Qed.

End Strip.

Lemma startswith_app (a b : str) : startswith a (a ++ b) = true.
Proof.
  induction a as [|c a IH]; simpl; [reflexivity|].
  now rewrite N.eqb_refl.
Qed.

Lemma startswith_inv (a s : str) :
  startswith a s = true -> exists b, s = a ++ b.
Proof.
  revert s; induction a as [|c a IH]; intros s H.
  - now exists s.
  - destruct s as [|d s]; simpl in H; [discriminate|].
    apply andb_prop in H as [Hc Hs]. apply N.eqb_eq in Hc as ->.
    destruct (IH _ Hs) as [b ->]. now exists b.
Qed.

(** A match cannot use a final code point that the pattern lacks. *)
Lemma startswith_snoc (old s : str) (c : codepoint) :
in_chars old c = false ->
startswith old (s ++ [c]) = true -> startswith old s = true.
Proof.
revert s; induction old as [|a old IH]; intros s Hc H; [reflexivity|].
cbn [in_chars existsb] in Hc. apply orb_false_elim in Hc as [Hac Hc].
destruct s as [|b s]; cbn [app startswith] in *.
- apply andb_prop in H as [H _]. rewrite N.eqb_sym in Hac. congruence.
- apply andb_prop in H as [-> H]. now apply IH.
Qed.

Lemma contains_snoc (old s : str) (c : codepoint) :
old <> [] -> in_chars old c = false ->
contains old s = false -> contains old (s ++ [c]) = false.
Proof.
intros Ho Hc. induction s as [|b s IH]; intros H.
- destruct old as [|a old]; [congruence|].
  cbn [in_chars existsb] in Hc. apply orb_false_elim in Hc as [Hac _].
  cbn. rewrite N.eqb_sym in Hac. now rewrite Hac.
- cbn [app contains] in *. apply orb_false_elim in H as [H1 H2].
  rewrite (IH H2), orb_false_r.
  destruct (startswith old (b :: s ++ [c])) eqn:E; [|reflexivity].
  apply (startswith_snoc old (b :: s) c Hc) in E. congruence.
Qed.

(** Without an occurrence of [old] nothing is replaced. *)
Lemma replace_from_absent (old new s : str) :
contains old s = false -> replace_from old new 0 s = s.
Proof.
induction s as [|c s IH]; [reflexivity|].
cbn [contains replace_from]. intros H.
apply orb_false_elim in H as [-> H]. now rewrite IH.
Qed.

Lemma replace_absent (old new s : str) :
old <> [] -> contains old s = false -> replace old new s = s.
Proof.
intros Ho Hc. destruct old; [congruence|]. now apply replace_from_absent.
Qed.

(** Replacing by the empty string never lengthens. *)
Lemma length_replace_from_nil (old s : str) (k : nat) :
length (replace_from old [] k s) <= length s.
Proof.
revert k; induction s as [|c s IH]; intros k; cbn [replace_from]; [lia|].
destruct k as [|k].
- destruct (startswith old (c :: s)); cbn [app length].
  + specialize (IH (length old - 1)). lia.
  + specialize (IH 0). lia.
- specialize (IH k). cbn [length]. lia.
Qed.

Lemma is_empty_true (s : str) : is_empty s = true <-> s = [].
Proof. destruct s; simpl; split; congruence. Qed.

Lemma is_empty_false (s : str) : is_empty s = false <-> s <> [].
Proof. destruct s; simpl; split; congruence. Qed.

Lemma isspace_space : isspace 32%N = true.
Proof. reflexivity. Qed.

(** ** The text endpoints *)

Section TextEndpoints.

Import Main Spec.

Variable str_of_list : list str -> str.

Ltac run :=
  cbv [autocomplete refine health_check autocomplete_lightart refine_lightart
       llm_create_chat_completion first_content_stripped
       mbind M_bind bind mret M_ret ret get raise try_except emit lift
       llm choices message_content outcome final trace fst snd].

Lemma autocomplete_unloaded (request : AutocompleteRequest) :
  autocomplete str_of_list request {| llm := None |}
  = (Raise ModelUnavailable, {| llm := None |}, []).
Proof. reflexivity. Qed.

Lemma refine_unloaded (request : AutocompleteRequest) :
  refine str_of_list request {| llm := None |}
  = (Raise ModelUnavailable, {| llm := None |}, []).
Proof. reflexivity. Qed.

Lemma autocomplete_blank (h : Llama) (request : AutocompleteRequest) :
  strip (sentence request) = [] ->
  autocomplete str_of_list request {| llm := Some h |}
  = (Raise InvalidInput, {| llm := Some h |}, []).
Proof. intros H. run. rewrite H. reflexivity. Qed.

Lemma refine_blank (h : Llama) (request : AutocompleteRequest) :
  strip (sentence request) = [] ->
  refine str_of_list request {| llm := Some h |}
  = (Raise InvalidInput, {| llm := Some h |}, []).
Proof. intros H. run. rewrite H. reflexivity. Qed.

Lemma autocomplete_returns (h : Llama) (request : AutocompleteRequest)
    (text : str) :
  strip (sentence request) <> [] ->
  model_returns h
    (autocomplete_messages str_of_list (sentence request) (suggestions request))
    autocomplete_sampling text ->
  autocomplete str_of_list request {| llm := Some h |}
  = (Ok {| completion := strip text;
           full_text := strip (sentence request ++ lit " " ++ strip text) |},
     {| llm := Some h |},
     [ChatCompletion
        (autocomplete_messages str_of_list (sentence request) (suggestions request))
        autocomplete_sampling]).
Proof.
  intros Hs [rest Hm]. apply is_empty_false in Hs.
  run. rewrite Hs, Hm. reflexivity.
Qed.

Lemma refine_returns (h : Llama) (request : AutocompleteRequest)
    (text : str) :
  strip (sentence request) <> [] ->
  model_returns h
    (refine_messages str_of_list (sentence request) (suggestions request))
    refine_sampling text ->
  refine str_of_list request {| llm := Some h |}
  = (Ok {| completion := strip text;
           full_text := strip (sentence request ++ lit " " ++ strip text) |},
     {| llm := Some h |},
     [ChatCompletion
        (refine_messages str_of_list (sentence request) (suggestions request))
        refine_sampling]).
Proof.
  intros Hs [rest Hm]. apply is_empty_false in Hs.
  run. rewrite Hs, Hm. reflexivity.
Qed.

(** What [strip] gives for the concatenation the assembler builds. *)
Lemma assembled_strip (base text : str) :
strip base <> [] ->
assembled base (strip text) (strip (base ++ lit " " ++ strip text)).
Proof.
intros Hb.
assert (Hl : lstrip base <> []).
{ intros E. apply Hb. unfold strip, strip_with. fold (lstrip base).
  now rewrite E. }
assert (Hnil : strip text = [] ->
               strip (base ++ lit " " ++ strip text) = strip base).
{ intros ->. apply (strip_with_snoc isspace base 32%N isspace_space). }
assert (Hcons : strip text <> [] ->
                strip (base ++ lit " " ++ strip text)
                = lstrip base ++ lit " " ++ strip text).
{ intros Ht. apply (strip_with_app_stripped isspace base text 32%N Hl Ht). }
repeat split; auto.
intros Hr.
assert (Hsb : strip base = lstrip base).
{ destruct (lstrip_with_suffix isspace base) as [w [Hw _]].
  apply (rstrip_with_fixed isspace w). unfold rstrip in Hr. unfold lstrip.
  now rewrite <- Hw. }
assert (Hi : strip (strip text) = strip text) by apply strip_with_idem.
rewrite Hi, Hsb.
destruct (decide (strip text = [])) as [Ht|Ht].
- rewrite (Hnil Ht), Ht.
  change (lstrip base ++ lit " " ++ []) with (lstrip base ++ [32%N]).
  unfold strip at 2. rewrite strip_with_snoc by apply isspace_space.
  unfold strip, strip_with, lstrip. now rewrite lstrip_with_idem.
- rewrite (Hcons Ht). symmetry.
  pose proof (strip_with_app_stripped isspace (lstrip base) text 32%N) as H.
  unfold lstrip in H at 2. rewrite lstrip_with_idem in H.
  apply H; [exact Hl | exact Ht].
Qed.

(** C5: for a sentence that is non-empty after trimming, a non-empty list
    of allowed phrases and any completion text the model returns, the
    [full_text] of the response of /autocomplete and of /refine starts
    with the trimmed sentence. *)
Theorem full_text_starts_with_sentence
  (h : Llama) (request : AutocompleteRequest) (text : str) :
strip (sentence request) <> [] ->
1 <= length (suggestions request) ->
(model_returns h
   (autocomplete_messages str_of_list (sentence request) (suggestions request))
   autocomplete_sampling text ->
 exists resp,
   outcome (autocomplete str_of_list request {| llm := Some h |}) = Ok resp
   /\ startswith (strip (sentence request)) (full_text resp) = true)
/\ (model_returns h
      (refine_messages str_of_list (sentence request) (suggestions request))
      refine_sampling text ->
    exists resp,
      outcome (refine str_of_list request {| llm := Some h |}) = Ok resp
      /\ startswith (strip (sentence request)) (full_text resp) = true).
Proof.
intros Hs _.
destruct (strip_with_app_prefix isspace (sentence request)
            (lit " " ++ strip text)) as [w Hw].
fold (strip (sentence request ++ lit " " ++ strip text)) in Hw.
fold (strip (sentence request)) in Hw.
split; intros Hm.
- rewrite (autocomplete_returns h request text Hs Hm).
  eexists; split; [reflexivity|]. cbn [full_text]. rewrite Hw.
  apply startswith_app.
- rewrite (refine_returns h request text Hs Hm).
  eexists; split; [reflexivity|]. cbn [full_text]. rewrite Hw.
  apply startswith_app.
Qed.

(** C4, as amended: the assembler concatenates the sentence as it was
    given (not trimmed), a single space and the trimmed completion, and
    trims the whole.  So [full_text] is the sentence without its leading
    whitespace, a space and the completion when the completion is not
    empty, exactly the trimmed sentence when it is empty, and the trimmed
    sentence, a space and the trimmed completion whenever the sentence
    has no trailing whitespace.  The same holds for /autocomplete and
    /refine. *)
Theorem full_text_assembly
  (h : Llama) (request : AutocompleteRequest) (text : str) :
strip (sentence request) <> [] ->
(model_returns h
   (autocomplete_messages str_of_list (sentence request) (suggestions request))
   autocomplete_sampling text ->
 exists resp,
   outcome (autocomplete str_of_list request {| llm := Some h |}) = Ok resp
   /\ completion resp = strip text
   /\ assembled (sentence request) (completion resp) (full_text resp))
/\ (model_returns h
      (refine_messages str_of_list (sentence request) (suggestions request))
      refine_sampling text ->
    exists resp,
      outcome (refine str_of_list request {| llm := Some h |}) = Ok resp
      /\ completion resp = strip text
      /\ assembled (sentence request) (completion resp) (full_text resp)).
Proof.
intros Hs. split; intros Hm.
- rewrite (autocomplete_returns h request text Hs Hm).
  eexists; split; [reflexivity|]. split; [reflexivity|].
  now apply assembled_strip.
- rewrite (refine_returns h request text Hs Hm).
  eexists; split; [reflexivity|]. split; [reflexivity|].
  now apply assembled_strip.
Qed.

(** C6, as amended: a request to /autocomplete or /refine whose sentence
    is empty after trimming never reaches the model and leaves the state
    as it was; it is answered with InvalidInput (400) when the model is
    loaded, and with ModelUnavailable (503) when it is not, because
    availability is checked first. *)
Theorem blank_sentence_rejected (st : server) (request : AutocompleteRequest) :
strip (sentence request) = [] ->
let expected :=
  match llm st with Some _ => InvalidInput | None => ModelUnavailable end in
autocomplete str_of_list request st = (Raise expected, st, [])
/\ refine str_of_list request st = (Raise expected, st, [])
/\ model_calls (trace (autocomplete str_of_list request st)) = 0
/\ model_calls (trace (refine str_of_list request st)) = 0.
Proof.
intros Hs. destruct st as [[h|]]; cbn [llm].
- rewrite (autocomplete_blank h request Hs), (refine_blank h request Hs).
  repeat split.
- rewrite autocomplete_unloaded, refine_unloaded. repeat split.
Qed.

(** C8: both handlers test the model handle before the sentence, so a
    whitespace-only sentence sent while the model is not loaded is
    answered with ModelUnavailable (503), not with InvalidInput (400). *)
Theorem availability_checked_first (request : AutocompleteRequest) :
strip (sentence request) = [] ->
outcome (autocomplete str_of_list request {| llm := None |})
  = Raise ModelUnavailable
/\ outcome (refine str_of_list request {| llm := None |})
    = Raise ModelUnavailable
/\ status ModelUnavailable = Some 503%Z
/\ status InvalidInput = Some 400%Z.
Proof.
intros _. rewrite autocomplete_unloaded, refine_unloaded. repeat split.
Qed.

Lemma health_check_unloaded :
health_check {| llm := None |}
= (Raise ModelUnavailable_health, {| llm := None |}, []).
Proof. reflexivity. Qed.

Lemma serve_all_cons (q : request) (rs : list request) (st : server) :
serve_all str_of_list (q :: rs) st
= let r1 := serve str_of_list q st in
  let r2 := serve_all str_of_list rs r1.1.2 in
  (r1.1.1 :: r2.1.1, r2.1.2, r1.2 ++ r2.2).
Proof.
cbn [serve_all]. destruct (serve str_of_list q st) as [[out st'] t].
cbn [fst snd]. now destruct (serve_all str_of_list rs st') as [[outs st''] t'].
Qed.

Lemma serve_unloaded (q : request) :
exists out,
  serve str_of_list q {| llm := None |} = (out, {| llm := None |}, [])
  /\ unavailable_response q out.
Proof.
destruct q; cbn [serve]; cbv [fmap M_fmap bind].
- eexists; split; [reflexivity | exact I].
- rewrite health_check_unloaded. eexists; split; reflexivity.
- rewrite autocomplete_unloaded. eexists; split; reflexivity.
- rewrite refine_unloaded. eexists; split; reflexivity.
Qed.

(** With no model, any sequence of requests is answered without a model
    call and without a change of the handle. *)
Lemma serve_all_unloaded (rs : list request) :
let r := serve_all str_of_list rs {| llm := None |} in
Forall2 unavailable_response rs r.1.1
/\ r.1.2 = {| llm := None |}
/\ r.2 = [].
Proof.
cbv zeta. induction rs as [|q rs (Hf & Hst & Ht)].
- repeat split. constructor.
- rewrite serve_all_cons. cbv zeta.
  destruct (serve_unloaded q) as (out & -> & Hq). cbn [fst snd].
  rewrite Hst, Ht. repeat split. now constructor.
Qed.

Lemma startup_failed (Llama_new : llama_args -> result Llama)
  (st0 : server) (e : exn) :
Llama_new llama_kwargs = Raise e ->
final (startup Llama_new st0) = {| llm := None |}.
Proof.
intros H.
cbv [startup print mbind M_bind bind mret M_ret ret put try_except emit final
     fst snd].
rewrite H. reflexivity.
Qed.

(** C7: when loading the model fails at startup, [llm] is [None], and
    from then on every request to /health, /autocomplete and /refine is
    answered with the 503 ModelUnavailable error; no request calls or
    reloads the model, and the handle stays [None]. *)
Theorem model_unavailable_everywhere
  (Llama_new : llama_args -> result Llama) (st0 : server) (e : exn)
  (rs : list request) :
Llama_new llama_kwargs = Raise e ->
let st := final (startup Llama_new st0) in
let r := serve_all str_of_list rs st in
llm st = None
/\ Forall2 unavailable_response rs r.1.1
/\ llm r.1.2 = None
/\ r.2 = []
/\ status ModelUnavailable = Some 503%Z
/\ status ModelUnavailable_health = Some 503%Z.
Proof.
intros H. cbv zeta. rewrite (startup_failed Llama_new st0 e H).
destruct (serve_all_unloaded rs) as (Hf & Hst & Ht).
rewrite Hst. repeat split; assumption.
Qed.

(** The events of a handler: nothing, or the one call to the model. *)
Lemma autocomplete_trace (st : server) (request : AutocompleteRequest) :
trace (autocomplete str_of_list request st) = []
\/ trace (autocomplete str_of_list request st)
   = [ChatCompletion
        (autocomplete_messages str_of_list (sentence request) (suggestions request))
        autocomplete_sampling].
Proof.
destruct st as [[h|]]; [|now left].
run. destruct (is_empty (strip (sentence request))); [now left|].
destruct (create_chat_completion h _ _) as [[[|[[c|]] rest]]|e];
  now right.
Qed.

Lemma refine_trace (st : server) (request : AutocompleteRequest) :
trace (refine str_of_list request st) = []
\/ trace (refine str_of_list request st)
   = [ChatCompletion
        (refine_messages str_of_list (sentence request) (suggestions request))
        refine_sampling].
Proof.
destruct st as [[h|]]; [|now left].
run. destruct (is_empty (strip (sentence request))); [now left|].
destruct (create_chat_completion h _ _) as [[[|[[c|]] rest]]|e];
  now right.
Qed.

(** *** Further properties of the handlers *)

(** What a handler does once the model is loaded and the sentence is not
    blank: one call, whose result decides the answer. *)
Lemma autocomplete_loaded (h : Llama) (request : AutocompleteRequest) :
strip (sentence request) <> [] ->
autocomplete str_of_list request {| llm := Some h |}
= (match create_chat_completion h
           (autocomplete_messages str_of_list (sentence request)
              (suggestions request)) autocomplete_sampling with
   | Raise e =>
       Raise (HTTPException 500
                (lit "Error generating autocomplete: " ++ exn_str e))
   | Ok response =>
       match choices response with
       | [] =>
           Raise (HTTPException 500
                    (lit "Error generating autocomplete: "
                     ++ lit "list index out of range"))
       | c :: _ =>
           match message_content c with
           | None =>
               Raise (HTTPException 500
                        (lit "Error generating autocomplete: "
                         ++ lit "'NoneType' object has no attribute 'strip'"))
           | Some text =>
               Ok {| completion := strip text;
                     full_text :=
                       strip (sentence request ++ lit " " ++ strip text) |}
           end
       end
   end,
   {| llm := Some h |},
   [ChatCompletion
      (autocomplete_messages str_of_list (sentence request) (suggestions request))
      autocomplete_sampling]).
Proof.
intros Hs. apply is_empty_false in Hs. run. rewrite Hs.
destruct (create_chat_completion h _ _) as [[[|[[text|]] rest]]|e];
  reflexivity.
Qed.

Lemma refine_loaded (h : Llama) (request : AutocompleteRequest) :
strip (sentence request) <> [] ->
refine str_of_list request {| llm := Some h |}
= (match create_chat_completion h
           (refine_messages str_of_list (sentence request)
              (suggestions request)) refine_sampling with
   | Raise e =>
       Raise (HTTPException 500
                (lit "Error generating refinement: " ++ exn_str e))
   | Ok response =>
       match choices response with
       | [] =>
           Raise (HTTPException 500
                    (lit "Error generating refinement: "
                     ++ lit "list index out of range"))
       | c :: _ =>
           match message_content c with
           | None =>
               Raise (HTTPException 500
                        (lit "Error generating refinement: "
                         ++ lit "'NoneType' object has no attribute 'strip'"))
           | Some text =>
               Ok {| completion := strip text;
                     full_text :=
                       strip (sentence request ++ lit " " ++ strip text) |}
           end
       end
   end,
   {| llm := Some h |},
   [ChatCompletion
      (refine_messages str_of_list (sentence request) (suggestions request))
      refine_sampling]).
Proof.
intros Hs. apply is_empty_false in Hs. run. rewrite Hs.
destruct (create_chat_completion h _ _) as [[[|[[text|]] rest]]|e];
  reflexivity.
Qed.

(** X1: whatever the state, the request and the behaviour of the model,
    /autocomplete and /refine answer with a response or with an
    HTTPException of status 503, 400 or 500; no other exception leaves a
    handler. *)
Theorem handlers_answer_http (st : server) (request : AutocompleteRequest) :
http_outcome (outcome (autocomplete str_of_list request st))
/\ http_outcome (outcome (refine str_of_list request st)).
Proof.
destruct st as [[h|]].
- destruct (decide (strip (sentence request) = [])) as [Hs|Hs].
  + rewrite (autocomplete_blank h request Hs), (refine_blank h request Hs).
    split; cbn; auto.
  + rewrite (autocomplete_loaded h request Hs), (refine_loaded h request Hs).
    split; cbn [outcome fst];
      destruct (create_chat_completion h _ _) as [[[|[[text|]] rest]]|e];
      cbn; auto.
- rewrite autocomplete_unloaded, refine_unloaded. split; cbn; auto.
Qed.

(** X2: a handler never changes the model handle, and it calls the model
    exactly once when the model is loaded and the sentence is not blank,
    and not at all otherwise; a failed call is not repeated. *)
Theorem handlers_call_once (st : server) (request : AutocompleteRequest) :
final (autocomplete str_of_list request st) = st
/\ model_calls (trace (autocomplete str_of_list request st))
   = expected_calls st request
/\ final (refine str_of_list request st) = st
/\ model_calls (trace (refine str_of_list request st))
   = expected_calls st request.
Proof.
unfold expected_calls. destruct st as [[h|]]; cbn [llm].
- destruct (decide (strip (sentence request) = [])) as [Hs|Hs].
  + rewrite (autocomplete_blank h request Hs), (refine_blank h request Hs).
    rewrite Hs. repeat split.
  + rewrite (autocomplete_loaded h request Hs), (refine_loaded h request Hs).
    apply is_empty_false in Hs. rewrite Hs. repeat split.
- rewrite autocomplete_unloaded, refine_unloaded. repeat split.
Qed.

(** X3: when the call of the model raises [e], the handler answers with
    status 500 and a detail that ends with [str(e)]; the handle is
    untouched and the call is the only event. *)
Theorem generation_failure_is_500
  (h : Llama) (request : AutocompleteRequest) (e : exn) :
strip (sentence request) <> [] ->
(create_chat_completion h
   (autocomplete_messages str_of_list (sentence request) (suggestions request))
   autocomplete_sampling = Raise e ->
 autocomplete str_of_list request {| llm := Some h |}
 = (Raise (HTTPException 500
             (lit "Error generating autocomplete: " ++ exn_str e)),
    {| llm := Some h |},
    [ChatCompletion
       (autocomplete_messages str_of_list (sentence request)
          (suggestions request)) autocomplete_sampling]))
/\ (create_chat_completion h
      (refine_messages str_of_list (sentence request) (suggestions request))
      refine_sampling = Raise e ->
    refine str_of_list request {| llm := Some h |}
    = (Raise (HTTPException 500
                (lit "Error generating refinement: " ++ exn_str e)),
       {| llm := Some h |},
       [ChatCompletion
          (refine_messages str_of_list (sentence request)
             (suggestions request)) refine_sampling])).
Proof.
intros Hs. split; intros He.
- rewrite (autocomplete_loaded h request Hs), He. reflexivity.
- rewrite (refine_loaded h request Hs), He. reflexivity.
Qed.

(** X4: an answer of the model without any choice, or whose first choice
    has no content, is reported as status 500 with the text of the
    IndexError or AttributeError it causes; no response is built. *)
Theorem malformed_answer_is_500
  (h : Llama) (request : AutocompleteRequest) (rest : list choice) :
strip (sentence request) <> [] ->
(create_chat_completion h
   (autocomplete_messages str_of_list (sentence request) (suggestions request))
   autocomplete_sampling = Ok {| choices := [] |} ->
 outcome (autocomplete str_of_list request {| llm := Some h |})
 = Raise (HTTPException 500
            (lit "Error generating autocomplete: list index out of range")))
/\ (create_chat_completion h
      (autocomplete_messages str_of_list (sentence request) (suggestions request))
      autocomplete_sampling
    = Ok {| choices := {| message_content := None |} :: rest |} ->
    outcome (autocomplete str_of_list request {| llm := Some h |})
    = Raise (HTTPException 500
               (lit "Error generating autocomplete: 'NoneType' object has no attribute 'strip'")))
/\ (create_chat_completion h
      (refine_messages str_of_list (sentence request) (suggestions request))
      refine_sampling = Ok {| choices := [] |} ->
    outcome (refine str_of_list request {| llm := Some h |})
    = Raise (HTTPException 500
               (lit "Error generating refinement: list index out of range")))
/\ (create_chat_completion h
      (refine_messages str_of_list (sentence request) (suggestions request))
      refine_sampling
    = Ok {| choices := {| message_content := None |} :: rest |} ->
    outcome (refine str_of_list request {| llm := Some h |})
    = Raise (HTTPException 500
               (lit "Error generating refinement: 'NoneType' object has no attribute 'strip'"))).
Proof.
intros Hs. repeat split; intros He.
- rewrite (autocomplete_loaded h request Hs), He. reflexivity.
- rewrite (autocomplete_loaded h request Hs), He. reflexivity.
- rewrite (refine_loaded h request Hs), He. reflexivity.
- rewrite (refine_loaded h request Hs), He. reflexivity.
Qed.

Lemma endswith_app (a b : str) : endswith b (a ++ b) = true.
Proof. unfold endswith. rewrite rev_app_distr. apply startswith_app. Qed.

(** The shape of what the assembler builds. *)
Lemma assembled_shape (base text : str) :
strip base <> [] ->
strip (strip text) = strip text
/\ strip (strip (base ++ lit " " ++ strip text))
   = strip (base ++ lit " " ++ strip text)
/\ strip (base ++ lit " " ++ strip text) <> []
/\ endswith (strip text) (strip (base ++ lit " " ++ strip text)) = true.
Proof.
intros Hb. split; [apply strip_with_idem|]. split; [apply strip_with_idem|].
split.
- destruct (strip_with_app_prefix isspace base (lit " " ++ strip text))
    as [w Hw].
  fold (strip (base ++ lit " " ++ strip text)) in Hw. fold (strip base) in Hw.
  rewrite Hw. destruct (strip base); [congruence | discriminate].
- destruct (assembled_strip base text Hb) as (_ & Hnil & Hcons & _).
  destruct (decide (strip text = [])) as [Ht|Ht].
  + rewrite Ht. reflexivity.
  + rewrite (Hcons Ht), app_assoc. apply endswith_app.
Qed.

Lemma autocomplete_ok_inv (st : server) (request : AutocompleteRequest)
  (resp : AutocompleteResponse) :
outcome (autocomplete str_of_list request st) = Ok resp ->
exists text,
  strip (sentence request) <> []
  /\ resp = {| completion := strip text;
               full_text := strip (sentence request ++ lit " " ++ strip text) |}.
Proof.
destruct st as [[h|]]; [|rewrite autocomplete_unloaded; discriminate].
destruct (decide (strip (sentence request) = [])) as [Hs|Hs].
- rewrite (autocomplete_blank h request Hs). discriminate.
- rewrite (autocomplete_loaded h request Hs). cbn [outcome fst].
  destruct (create_chat_completion h _ _) as [[[|[[text|]] rest]]|e];
    try discriminate.
  intros [= <-]. now exists text.
Qed.

Lemma refine_ok_inv (st : server) (request : AutocompleteRequest)
  (resp : AutocompleteResponse) :
outcome (refine str_of_list request st) = Ok resp ->
exists text,
  strip (sentence request) <> []
  /\ resp = {| completion := strip text;
               full_text := strip (sentence request ++ lit " " ++ strip text) |}.
Proof.
destruct st as [[h|]]; [|rewrite refine_unloaded; discriminate].
destruct (decide (strip (sentence request) = [])) as [Hs|Hs].
- rewrite (refine_blank h request Hs). discriminate.
- rewrite (refine_loaded h request Hs). cbn [outcome fst].
  destruct (create_chat_completion h _ _) as [[[|[[text|]] rest]]|e];
    try discriminate.
  intros [= <-]. now exists text.
Qed.

(** X5: in every response of /autocomplete and /refine the completion
    and the full text have no leading or trailing whitespace, the full
    text is not empty, and it ends with the completion. *)
Theorem responses_are_trimmed
  (st : server) (request : AutocompleteRequest) (resp : AutocompleteResponse) :
outcome (autocomplete str_of_list request st) = Ok resp
\/ outcome (refine str_of_list request st) = Ok resp ->
strip (completion resp) = completion resp
/\ strip (full_text resp) = full_text resp
/\ full_text resp <> []
/\ endswith (completion resp) (full_text resp) = true.
Proof.
intros H.
assert (Hi : exists text,
          strip (sentence request) <> []
          /\ resp = {| completion := strip text;
                       full_text :=
                         strip (sentence request ++ lit " " ++ strip text) |}).
{ destruct H as [H|H];
    [eapply autocomplete_ok_inv | eapply refine_ok_inv]; exact H. }
destruct Hi as (text & Hs & ->). cbn [completion full_text].
now apply assembled_shape.
Qed.

(** X6: loading the model never raises: whatever [Llama(...)] does, the
    module goes on, with [llm] holding the handle when the constructor
    returned one and [None] when it raised, the error only printed. *)
Theorem startup_never_raises
  (Llama_new : llama_args -> result Llama) (st0 : server) :
outcome (startup Llama_new st0) = Ok tt
/\ llm (final (startup Llama_new st0))
   = match Llama_new llama_kwargs with Ok h => Some h | Raise _ => None end
/\ trace (startup Llama_new st0)
   = [ Print (lit "Loading model from " ++ MODEL_PATH ++ lit "...");
       LoadModel llama_kwargs;
       Print (match Llama_new llama_kwargs with
              | Ok _ => lit "Model loaded successfully!"
              | Raise e => lit "Error loading model: " ++ exn_str e
              end) ].
Proof.
cbv [startup print mbind M_bind bind mret M_ret ret put try_except emit
     outcome final trace fst snd].
destruct (Llama_new llama_kwargs) as [h|e]; repeat split.
Qed.

Lemma model_calls_app (t t' : list event) :
model_calls (t ++ t') = model_calls t + model_calls t'.
Proof. unfold model_calls. now rewrite filter_app, length_app. Qed.

Lemma posts_cons (q : request) (rs : list request) :
posts (q :: rs) = (if is_post q then 1 else 0) + posts rs.
Proof.
unfold posts. rewrite filter_cons.
destruct (is_post q); case_decide; try congruence; reflexivity.
Qed.

(** One request leaves the handle alone and costs at most one call. *)
Lemma serve_step (q : request) (st : server) :
exists out t,
  serve str_of_list q st = (out, st, t)
  /\ model_calls t <= (if is_post q then 1 else 0).
Proof.
destruct q as [| |request|request]; cbn [serve is_post];
  cbv [fmap M_fmap bind].
- eexists _, _. split; [reflexivity|]. vm_compute; lia.
- cbv [health_check mbind M_bind bind get raise mret M_ret ret].
  destruct (llm st); eexists _, _; (split; [reflexivity|]); vm_compute; lia.
- destruct st as [[h|]].
  + destruct (decide (strip (sentence request) = [])) as [Hs|Hs].
    * rewrite (autocomplete_blank h request Hs).
      eexists _, _. split; [reflexivity|]. vm_compute; lia.
    * rewrite (autocomplete_loaded h request Hs).
      destruct (create_chat_completion h _ _) as [[[|[[text|]] rest]]|e];
        eexists _, _; (split; [reflexivity|]); vm_compute; lia.
  + rewrite autocomplete_unloaded.
    eexists _, _. split; [reflexivity|]. vm_compute; lia.
- destruct st as [[h|]].
  + destruct (decide (strip (sentence request) = [])) as [Hs|Hs].
    * rewrite (refine_blank h request Hs).
      eexists _, _. split; [reflexivity|]. vm_compute; lia.
    * rewrite (refine_loaded h request Hs).
      destruct (create_chat_completion h _ _) as [[[|[[text|]] rest]]|e];
        eexists _, _; (split; [reflexivity|]); vm_compute; lia.
  + rewrite refine_unloaded.
    eexists _, _. split; [reflexivity|]. vm_compute; lia.
Qed.

(** X7: over any sequence of requests and from any state, every request
    gets its answer, the model handle at the end is the one at the start,
    and the model is called at most once per request to /autocomplete or
    /refine: no answer, error or not, costs a second call, and [GET /]
    and [GET /health] cost none. *)
Theorem serve_all_keeps_handle (rs : list request) (st : server) :
let r := serve_all str_of_list rs st in
length r.1.1 = length rs
/\ r.1.2 = st
/\ model_calls r.2 <= posts rs.
Proof.
cbv zeta. induction rs as [|q rs (Hl & Hst & Hc)].
- repeat split. cbn. lia.
- rewrite serve_all_cons. cbv zeta.
  destruct (serve_step q st) as (out & t & -> & Ht). cbn [fst snd].
  rewrite Hst, model_calls_app, posts_cons. cbn [length].
  repeat split; [now rewrite Hl | lia].
Qed.

End TextEndpoints.

(** ** The schema *)

Section Schema.

Import SuggestionsPY Spec.

Lemma validate_strs_length (loc : string) (l : list pyobj) (ss : list str) :
validate_strs loc l = Ok ss -> length ss = length l.
Proof.
revert ss; induction l as [|v l IH]; intros ss; cbn [validate_strs].
- now intros [= <-].
- cbv [mbind result_bind mret result_ret].
  destruct (validate_str loc v) as [s|e]; [|discriminate].
  destruct (validate_strs loc l) as [ss'|e]; [|discriminate].
  intros [= <-]. cbn [length]. f_equal. now apply IH.
Qed.

Lemma validate_conlist_length (loc : string) (lo hi : nat) (v : pyobj)
  (ss : list str) :
validate_conlist loc lo hi v = Ok ss -> lo <= length ss <= hi.
Proof.
destruct v; try discriminate. cbn [validate_conlist].
destruct (length l <? lo) eqn:Hlo; [discriminate|].
destruct (hi <? length l) eqn:Hhi; [discriminate|].
intros H. apply validate_strs_length in H.
apply Nat.ltb_ge in Hlo, Hhi. rewrite H. now split.
Qed.

(** Validation succeeds only on fifteen general suggestions. *)
Lemma model_validate_length (obj : pyobj) (b : CombinedSuggestions) :
CombinedSuggestions_model_validate obj = Ok b ->
length (normal_suggestions b) = 15.
Proof.
destruct obj; try discriminate. cbn [CombinedSuggestions_model_validate].
cbv [mbind result_bind mret result_ret].
destruct (required "main_suggestions" items) as [m|e]; [|discriminate].
destruct (MainSuggestions_model_validate m) as [ms|e]; [|discriminate].
destruct (required "normal_suggestions" items) as [n|e]; [|discriminate].
destruct (validate_conlist "normal_suggestions" 15 15 n) as [ss|e] eqn:Hn;
  [|discriminate].
intros [= <-]. cbn [normal_suggestions].
apply validate_conlist_length in Hn. destruct Hn.
now apply Nat.le_antisymm.
Qed.

(** An object with another number of general suggestions is rejected. *)
Lemma model_validate_count (n : nat) (obj : pyobj) :
normal_count n obj -> n <> 15 ->
exists e, CombinedSuggestions_model_validate obj = Raise e.
Proof.
intros (items & l & -> & Hget & Hlen) Hn.
cbn [CombinedSuggestions_model_validate].
cbv [mbind result_bind mret result_ret].
destruct (required "main_suggestions" items) as [m|e]; [|eauto].
destruct (MainSuggestions_model_validate m) as [ms|e]; [|eauto].
unfold required. rewrite Hget. cbn [validate_conlist]. rewrite Hlen.
destruct (n <? 15) eqn:Hlo; [eauto|].
destruct (15 <? n) eqn:Hhi; [eauto|].
apply Nat.ltb_ge in Hlo, Hhi. lia.
Qed.

(** *** Further properties of the schema *)

Lemma validate_strs_inv (loc : string) (l : list pyobj) (ss : list str) :
validate_strs loc l = Ok ss <-> l = map PyStr ss.
Proof.
revert ss; induction l as [|v l IH]; intros ss; cbn [validate_strs].
- split.
  + now intros [= <-].
  + destruct ss; [reflexivity | discriminate].
- cbv [mbind result_bind mret result_ret]. split.
  + destruct v; try discriminate. cbn [validate_str].
    destruct (validate_strs loc l) as [ss'|e] eqn:E; [|discriminate].
    intros [= <-]. cbn [map]. f_equal. now apply IH.
  + destruct ss as [|s' ss]; [discriminate|]. cbn [map].
    intros [= -> Hl]. cbn [validate_str].
    apply IH in Hl. now rewrite Hl.
Qed.

Lemma required_get (loc : string) (items : list (str * pyobj)) (v : pyobj) :
required loc items = Ok v <-> dict_get (lit loc) items = Some v.
Proof.
unfold required. destruct (dict_get (lit loc) items); split; congruence.
Qed.

Lemma validate_str_inv (loc : string) (v : pyobj) (s : str) :
validate_str loc v = Ok s <-> v = PyStr s.
Proof. destruct v; cbn [validate_str]; split; congruence. Qed.

Ltac field loc items :=
  let v := fresh "v" in
  let s := fresh "s" in
  let E := fresh "E" in
  let E' := fresh "E'" in
  destruct (required loc items) as [v|?] eqn:E; [|discriminate];
  destruct (validate_str loc v) as [s|?] eqn:E'; [|discriminate];
  apply required_get in E; apply validate_str_inv in E'; subst v.

Lemma MainSuggestions_model_validate_inv (obj : pyobj) (m : MainSuggestions) :
MainSuggestions_model_validate obj = Ok m
<-> exists mitems,
      obj = PyDict mitems
      /\ dict_get (lit "movie_style_suggestion") mitems
         = Some (PyStr (movie_style_suggestion m))
      /\ dict_get (lit "mood_suggestion") mitems
         = Some (PyStr (mood_suggestion m))
      /\ dict_get (lit "color_focus_suggestion") mitems
         = Some (PyStr (color_focus_suggestion m))
      /\ dict_get (lit "other_main_suggestion") mitems
         = Some (PyStr (other_main_suggestion m)).
Proof.
split.
- destruct obj; try discriminate. cbn [MainSuggestions_model_validate].
  cbv [mbind result_bind mret result_ret].
  field "movie_style_suggestion" items. field "mood_suggestion" items.
  field "color_focus_suggestion" items. field "other_main_suggestion" items.
  intros [= <-]. exists items. cbn. auto.
- intros (mitems & -> & Ha & Hb & Hc & Hd).
  apply required_get in Ha, Hb, Hc, Hd.
  cbn [MainSuggestions_model_validate].
  cbv [mbind result_bind mret result_ret].
  rewrite Ha, Hb, Hc, Hd. cbn [validate_str]. now destruct m.
Qed.

(** A validated bundle was read off the object, string by string. *)
Lemma model_validate_sound (obj : pyobj) (b : CombinedSuggestions) :
CombinedSuggestions_model_validate obj = Ok b -> holds_bundle obj b.
Proof.
unfold holds_bundle.
intros H. pose proof (model_validate_length obj b H) as Hlen. revert H.
destruct obj; try discriminate. cbn [CombinedSuggestions_model_validate].
destruct (required "main_suggestions" items) as [m|e] eqn:Em;
  [|discriminate].
cbv [mbind result_bind mret result_ret].
destruct (MainSuggestions_model_validate m) as [ms|e] eqn:Ems;
  [|discriminate].
destruct (required "normal_suggestions" items) as [n|e] eqn:En;
  [|discriminate].
destruct n; try discriminate. cbn [validate_conlist].
destruct (length l <? 15); [discriminate|].
destruct (15 <? length l); [discriminate|].
destruct (validate_strs "normal_suggestions" l) as [ss|e] eqn:Ess;
  [|discriminate].
intros [= <-]. cbn [main_suggestions normal_suggestions] in *.
apply MainSuggestions_model_validate_inv in Ems
  as (mitems & -> & Ha & Hb & Hc & Hd).
apply required_get in Em, En. apply validate_strs_inv in Ess as ->.
exists items, mitems. auto 10.
Qed.

(** An object that holds a bundle validates to it. *)
Lemma model_validate_complete (obj : pyobj) (b : CombinedSuggestions) :
holds_bundle obj b -> CombinedSuggestions_model_validate obj = Ok b.
Proof.
unfold holds_bundle.
intros (items & mitems & -> & Hm & Ha & Hb & Hc & Hd & Hn & Hlen).
cbn [CombinedSuggestions_model_validate].
apply required_get in Hm, Hn. rewrite Hm, Hn.
cbv [mbind result_bind mret result_ret].
assert (Hms : MainSuggestions_model_validate (PyDict mitems)
              = Ok (main_suggestions b)).
{ apply MainSuggestions_model_validate_inv. exists mitems. auto. }
rewrite Hms. cbn [validate_conlist].
rewrite length_map. unfold SuggestionType in *. rewrite Hlen.
cbn [Nat.ltb Nat.leb].
assert (Hss : validate_strs "normal_suggestions"
                (map PyStr (normal_suggestions b))
              = Ok (normal_suggestions b))
  by (apply (proj2 (validate_strs_inv _ _ _)); reflexivity).
rewrite Hss. now destruct b.
Qed.

(** X8: validation succeeds exactly on a dictionary that holds, under
    [main_suggestions], a dictionary with the four main fields as
    strings and, under [normal_suggestions], a list of fifteen strings;
    the bundle returned holds these strings unchanged, and any other key
    of either dictionary is ignored. *)
Theorem model_validate_iff (obj : pyobj) (b : CombinedSuggestions) :
CombinedSuggestions_model_validate obj = Ok b <-> holds_bundle obj b.
Proof.
split; [apply model_validate_sound | apply model_validate_complete].
Qed.

(** Every error of the validation is a [ValidationError]. *)
Lemma validate_strs_error (loc : string) (l : list pyobj) (e : exn) :
validate_strs loc l = Raise e -> exn_class e = "ValidationError".
Proof.
induction l as [|v l IH]; cbn [validate_strs]; [discriminate|].
cbv [mbind result_bind mret result_ret].
destruct v; cbn [validate_str]; try (now intros [= <-]).
destruct (validate_strs loc l) as [ss|e'] eqn:E; [discriminate|].
intros [= <-]. now apply IH.
Qed.

Lemma required_error (loc : string) (items : list (str * pyobj)) (e : exn) :
required loc items = Raise e -> exn_class e = "ValidationError".
Proof.
unfold required. destruct (dict_get (lit loc) items); [discriminate|].
now intros [= <-].
Qed.

Lemma validate_str_error (loc : string) (v : pyobj) (e : exn) :
validate_str loc v = Raise e -> exn_class e = "ValidationError".
Proof. destruct v; cbn [validate_str]; try discriminate; now intros [= <-]. Qed.

Ltac field_or_error loc items :=
  let v := fresh "v" in
  let s := fresh "s" in
  let E := fresh "E" in
  let E' := fresh "E'" in
  destruct (required loc items) as [v|?] eqn:E;
    [|intros [= <-]; eapply required_error; eauto];
  destruct (validate_str loc v) as [s|?] eqn:E';
    [|intros [= <-]; eapply validate_str_error; eauto].

Lemma model_validate_error (obj : pyobj) (e : exn) :
CombinedSuggestions_model_validate obj = Raise e ->
exn_class e = "ValidationError".
Proof.
destruct obj; try (now intros [= <-]).
cbn [CombinedSuggestions_model_validate].
cbv [mbind result_bind mret result_ret].
destruct (required "main_suggestions" items) as [m|e'] eqn:Em;
  [|intros [= <-]; eapply required_error; eauto].
destruct (MainSuggestions_model_validate m) as [ms|e'] eqn:Ems.
- destruct (required "normal_suggestions" items) as [n|e'] eqn:En;
    [|intros [= <-]; eapply required_error; eauto].
  destruct n; try (now intros [= <-]). cbn [validate_conlist].
  destruct (length l <? 15); [now intros [= <-]|].
  destruct (15 <? length l); [now intros [= <-]|].
  destruct (validate_strs "normal_suggestions" l) as [ss|e'] eqn:Ess;
    [discriminate|].
  intros [= <-]. eapply validate_strs_error; eauto.
- intros [= <-]. revert Ems.
  destruct m; try (now intros [= <-]).
  cbn [MainSuggestions_model_validate].
  cbv [mbind result_bind mret result_ret].
  field_or_error "movie_style_suggestion" items0.
  field_or_error "mood_suggestion" items0.
  field_or_error "color_focus_suggestion" items0.
  field_or_error "other_main_suggestion" items0.
  discriminate.
Qed.

End Schema.

(** ** The image pipeline *)

Section ImagePipeline.

Import SuggestionsPY Spec.

Variable Image : Type.
Variable save_jpeg : Image -> Z -> result (list N).
Variable b64encode : list N -> str.
Variable gemini_invoke : gemini_args -> list message -> result reply.
Variable parse_json_markdown : str -> result pyobj.
Variable json_loads : str -> result pyobj.
Variable format_instructions : str.
Variable API_KEY : option str.
Variable image_open : str -> result Image.
Variable model_dump_json : CombinedSuggestions -> str.
Variable find_module : string -> result unit.
Variable load_dotenv : result bool.
Variable ChatGoogleGenerativeAI_new : gemini_args -> result unit.
Variable BaseModel_new : string -> result unit.
Variable PydanticOutputParser_new : result unit.
Variable get_format_instructions : result str.

Local Abbreviation primary := (parser_parse parse_json_markdown).
Local Abbreviation validator := (parse_output parse_json_markdown json_loads).
Local Abbreviation pipeline :=
  (gemini_user_style_suggestions Image save_jpeg b64encode gemini_invoke
     parse_json_markdown json_loads format_instructions API_KEY).
Local Abbreviation encode := (pil_to_data_uri Image save_jpeg b64encode).
Local Abbreviation request data_uri :=
  [user_message format_instructions data_uri].

Ltac run_parse :=
  cbv [parse_output try_except emit print lift mbind M_bind bind mret M_ret
       ret outcome final trace fst snd].

Lemma parse_output_ok (raw : str) (ns : namespace) (b : CombinedSuggestions) :
primary raw = Ok b ->
validator raw ns = (Ok b, ns, [ParserParse raw]).
Proof. intros H. run_parse. now rewrite H. Qed.

Lemma parse_output_fallback (raw : str) (ns : namespace) (e : exn) :
primary raw = Raise e ->
validator raw ns
= (fallback json_loads raw, ns,
   [ParserParse raw;
    Print (lit "Pydantic parsing failed: " ++ exn_str e
           ++ lit ". Attempting direct JSON load.");
    JsonLoads raw]).
Proof.
intros H. run_parse. rewrite H. unfold fallback.
now destruct (json_loads raw) as [obj|e'].
Qed.

(** A bundle that comes out of the validator passed the schema. *)
Lemma parse_output_validated (raw : str) (ns : namespace)
  (b : CombinedSuggestions) :
outcome (validator raw ns) = Ok b ->
exists obj, CombinedSuggestions_model_validate obj = Ok b.
Proof.
destruct (primary raw) as [b'|e] eqn:Hp.
- rewrite (parse_output_ok raw ns b' Hp). intros [= <-].
  unfold parser_parse in Hp.
  destruct (parse_json_markdown raw) as [obj|e]; [|discriminate].
  exists obj.
  destruct (CombinedSuggestions_model_validate obj); congruence.
- rewrite (parse_output_fallback raw ns e Hp). cbn [outcome fst].
  unfold fallback. destruct (json_loads raw) as [obj|e']; [|discriminate].
  eauto.
Qed.

(** C2: the schema-aware parse is attempted first; the fallback (a raw
    JSON decode of the same text, then the coercion into
    [CombinedSuggestions]) is attempted if and only if that parse fails;
    the result of the fallback, an error included, is the result of the
    call, and nothing else is tried. *)
Theorem schema_validator_fallback (raw : str) (ns : namespace) :
let r := validator raw ns in
head (trace r) = Some (ParserParse raw)
/\ (JsonLoads raw ∈ trace r <-> exists e, primary raw = Raise e)
/\ (forall b, primary raw = Ok b ->
      outcome r = Ok b /\ trace r = [ParserParse raw])
/\ (forall e, primary raw = Raise e ->
      outcome r = fallback json_loads raw
      /\ trace r
         = [ParserParse raw;
            Print (lit "Pydantic parsing failed: " ++ exn_str e
                   ++ lit ". Attempting direct JSON load.");
            JsonLoads raw])
/\ (forall e e', primary raw = Raise e -> fallback json_loads raw = Raise e' ->
      outcome r = Raise e')
/\ final r = ns.
Proof.
cbv zeta. destruct (primary raw) as [b|e] eqn:Hp.
- rewrite (parse_output_ok raw ns b Hp). cbn [outcome final trace fst snd].
  split; [reflexivity|]. split.
  { split.
    - intros H. apply list_elem_of_singleton in H. discriminate.
    - intros [e He]. discriminate. }
  split. { intros b' [= <-]. now split. }
  split. { intros e He. discriminate. }
  split. { intros e e' He. discriminate. }
  reflexivity.
- rewrite (parse_output_fallback raw ns e Hp).
  cbn [outcome final trace fst snd].
  split; [reflexivity|]. split.
  { split; [eauto|]. intros _. do 2 right. left. }
  split. { intros b Hb. discriminate. }
  split. { intros e0 [= <-]. now split. }
  split. { now intros e0 e' _ ->. }
  reflexivity.
Qed.

(** The validator leaves the namespace alone. *)
Lemma parse_output_final (raw : str) (ns : namespace) :
final (validator raw ns) = ns.
Proof.
destruct (primary raw) as [b|e] eqn:Hp.
- now rewrite (parse_output_ok raw ns b Hp).
- now rewrite (parse_output_fallback raw ns e Hp).
Qed.

(** A run of the pipeline: the encoding of the image, the one call, the
    validator. *)
Lemma pipeline_run (image : Image) (ns : namespace) :
pipeline image ns
= match encode image with
  | Raise e => (Raise e, ns, [])
  | Ok data_uri =>
      match gemini_invoke (gemini API_KEY) (request data_uri) with
      | Raise e =>
          (Raise e, ns, [Invoke (gemini API_KEY) (request data_uri)])
      | Ok resp =>
          (outcome (validator (normalize (raw_of_reply resp)) ns), ns,
           Invoke (gemini API_KEY) (request data_uri)
           :: trace (validator (normalize (raw_of_reply resp)) ns))
      end
  end.
Proof.
cbv [gemini_user_style_suggestions emit lift mbind M_bind bind].
destruct (encode image) as [data_uri|e]; [|reflexivity].
destruct (gemini_invoke _ _) as [resp|e]; [|reflexivity].
pose proof (parse_output_final (normalize (raw_of_reply resp)) ns) as Hf.
destruct (validator _ ns) as [[out ns'] t].
cbn [final fst snd] in Hf. now subst ns'.
Qed.

(** C3: every bundle the pipeline returns has its four main fields and
    exactly fifteen general suggestions, nineteen in all; a text that
    decodes to an object with fourteen general suggestions fails the
    primary validation, and when the fallback rejects it too the call
    raises that error instead of returning a bundle. *)
Theorem bundle_cardinality (image : Image) (ns : namespace) :
(forall b, outcome (pipeline image ns) = Ok b ->
   length (main_fields (main_suggestions b)) = 4
   /\ length (normal_suggestions b) = 15
   /\ total_count b = 19)
/\ (forall raw obj,
      parse_json_markdown raw = Ok obj -> normal_count 14 obj ->
      (exists e, primary raw = Raise e)
      /\ (forall e', fallback json_loads raw = Raise e' ->
            outcome (validator raw ns) = Raise e')).
Proof.
split.
- intros b H.
  assert (Hv : exists obj, CombinedSuggestions_model_validate obj = Ok b).
  { revert H. rewrite pipeline_run.
    destruct (encode image) as [data_uri|e]; [|discriminate].
    destruct (gemini_invoke _ _) as [resp|e]; [|discriminate].
    apply (parse_output_validated (normalize (raw_of_reply resp)) ns). }
  destruct Hv as [obj Hv]. apply model_validate_length in Hv.
  unfold total_count. rewrite Hv. repeat split.
- intros raw obj Hd Hc.
  destruct (model_validate_count 14 obj Hc) as [e He]; [lia|].
  assert (Hp : exists e0, primary raw = Raise e0).
  { unfold parser_parse. rewrite Hd, He. eauto. }
  split; [exact Hp|].
  destruct Hp as [e0 Hp]. intros e' Hf.
  rewrite (parse_output_fallback raw ns e0 Hp). exact Hf.
Qed.

(** The remote model is called through the client of lines 20-23. *)
Lemma pipeline_client (image : Image) (ns : namespace) :
Forall (invoked_with (gemini API_KEY)) (trace (pipeline image ns)).
Proof.
rewrite pipeline_run.
destruct (encode image) as [data_uri|e]; [|constructor].
destruct (gemini_invoke _ _) as [resp|e].
- generalize (normalize (raw_of_reply resp)); intros raw.
  destruct (primary raw) as [b|e] eqn:Hp.
  + rewrite (parse_output_ok raw ns b Hp). cbn [trace snd app].
    repeat constructor.
  + rewrite (parse_output_fallback raw ns e Hp). cbn [trace snd app].
    repeat constructor.
- cbn [trace snd]. repeat constructor.
Qed.

Local Abbreviation prefix :=
  (module_prefix API_KEY find_module load_dotenv ChatGoogleGenerativeAI_new
     BaseModel_new PydanticOutputParser_new get_format_instructions).
Local Abbreviation body :=
  (module_body Image save_jpeg b64encode gemini_invoke parse_json_markdown
     json_loads format_instructions API_KEY image_open model_dump_json
     find_module load_dotenv ChatGoogleGenerativeAI_new BaseModel_new
     PydanticOutputParser_new get_format_instructions).
Local Abbreviation import :=
  (import_from Image save_jpeg b64encode gemini_invoke parse_json_markdown
     json_loads format_instructions API_KEY image_open model_dump_json
     find_module load_dotenv ChatGoogleGenerativeAI_new BaseModel_new
     PydanticOutputParser_new get_format_instructions).

Lemma store_then {A : Type} (k : string) (b : binding)
  (m : M namespace event A) (ns : namespace) :
(store k b;; m) ns = m (<[k := b]> ns).
Proof.
cbv [store mbind M_bind bind].
now destruct (m (<[k := b]> ns)) as [[r s] t].
Qed.

(** A namespace that does not bind [_name_] makes the guard raise. *)
Lemma guard_unbound (ns : namespace) :
ns !! "_name_" = None -> guard ns = (Raise NameError_name, ns, []).
Proof.
intros H.
cbv [guard load_name get raise mbind M_bind bind mret M_ret ret].
rewrite H. reflexivity.
Qed.

(** *** The statements before the guard *)

Lemma quiet_lift {A : Type} (r : result A) : quiet (lift r).
Proof. intros ns. now split. Qed.

Lemma quiet_store (k : string) (b : binding) :
k <> "_name_" -> quiet (store k b).
Proof.
intros Hk ns. split; [reflexivity|]. cbn [store final fst snd].
now apply lookup_insert_ne.
Qed.

Lemma quiet_bind {A B : Type} (m : M namespace event A)
  (k : A -> M namespace event B) :
quiet m -> (forall a, quiet (k a)) -> quiet (m ≫= k).
Proof.
intros Hm Hk ns. specialize (Hm ns). cbv [mbind M_bind bind].
destruct (m ns) as [[[a|e] ns'] t]; cbn [trace final fst snd] in *.
- specialize (Hk a ns'). destruct (k a ns') as [[r ns''] t'].
  cbn [trace final fst snd] in *. destruct Hm as [-> <-]. exact Hk.
- exact Hm.
Qed.

Lemma defines_store (name : string) (b : binding) : defines name b (store name b).
Proof. intros ns _. cbn [store final fst snd]. apply lookup_insert_eq. Qed.

Lemma defines_bind {A : Type} (name : string) (b : binding)
  (m : M namespace event A) (k : A -> M namespace event unit) :
(forall a, defines name b (k a)) -> defines name b (m ≫= k).
Proof.
intros Hk ns. cbv [mbind M_bind bind].
destruct (m ns) as [[[a|e] ns'] t]; cbn [outcome final fst snd];
  [|discriminate].
specialize (Hk a ns'). destruct (k a ns') as [[r ns''] t'].
cbn [outcome final fst snd] in *. exact Hk.
Qed.

(** Nothing before the guard binds [_name_] or performs a recorded
    action. *)
Lemma module_prefix_quiet : quiet prefix.
Proof.
unfold module_prefix.
repeat (apply quiet_bind;
        [first [apply quiet_lift | apply quiet_store; discriminate] | intros ?]).
apply quiet_store; discriminate.
Qed.

(** When the statements before the guard all succeed, the function is
    defined. *)
Lemma module_prefix_defines :
defines "gemini_user_style_suggestions" BFunction prefix.
Proof.
unfold module_prefix. repeat (apply defines_bind; intros ?).
apply defines_store.
Qed.

Lemma initial_namespace_name (name : str) :
initial_namespace name !! "_name_" = None.
Proof. vm_compute. reflexivity. Qed.

(** The module: what comes before the guard, then the guard, which
    raises. *)
Lemma module_body_run (ns : namespace) :
ns !! "_name_" = None ->
body ns
= match outcome (prefix ns) with
  | Ok _ => (Raise NameError_name, final (prefix ns), [])
  | Raise e => (Raise e, final (prefix ns), [])
  end.
Proof.
intros Hn. destruct (module_prefix_quiet ns) as [Ht Hf].
unfold module_body. cbv [mbind M_bind bind].
destruct (prefix ns) as [[[[]|e] ns'] t]; cbn [outcome final trace fst snd] in *.
- rewrite guard_unbound by congruence. now subst t.
- now subst t.
Qed.

(** C10, on the failing input: loading the module never succeeds.  When
    every statement before the guard succeeds, the function is defined,
    and then the guard reads the unbound name [_name_] and raises a
    NameError, whatever the module is run as: the example block performs
    no action (it is dead code), but the error ends the execution of the
    module, so an import fails and never yields the function; when an
    earlier statement raises, that error ends the module before the
    guard and before the function is defined. *)
Theorem guard_aborts_module_load (name : str) :
let ns0 := initial_namespace name in
(exists e, outcome (body ns0) = Raise e)
/\ trace (body ns0) = []
/\ (exists e, import "gemini_user_style_suggestions" = Raise e)
/\ (outcome (prefix ns0) = Ok tt ->
    final (prefix ns0) !! "gemini_user_style_suggestions" = Some BFunction
    /\ body ns0 = (Raise NameError_name, final (prefix ns0), []))
/\ (forall e, outcome (prefix ns0) = Raise e ->
    body ns0 = (Raise e, final (prefix ns0), [])).
Proof.
cbv zeta.
pose proof (module_body_run _ (initial_namespace_name name)) as Hb.
split.
{ rewrite Hb. destruct (outcome (prefix _)); eauto. }
split.
{ rewrite Hb. now destruct (outcome (prefix _)). }
split.
{ unfold import_from.
  rewrite (module_body_run _ (initial_namespace_name (lit "suggestionsPY"))).
  destruct (outcome (prefix (initial_namespace (lit "suggestionsPY"))));
    cbv beta iota; eauto. }
split.
- intros Hp. split; [now apply module_prefix_defines|].
  rewrite Hb, Hp. reflexivity.
- intros e Hp. rewrite Hb, Hp. reflexivity.
Qed.

(** *** Further properties of the validator and of the pipeline *)

Lemma parser_parse_error (raw : str) (e : exn) :
primary raw = Raise e -> exn_class e = "OutputParserException".
Proof.
unfold parser_parse.
destruct (parse_json_markdown raw) as [obj|e0]; [|now intros [= <-]].
destruct (CombinedSuggestions_model_validate obj); [discriminate|].
now intros [= <-].
Qed.

(** X9: when the validator raises, the error is the one of the fallback:
    the error of [json.loads], or the ValidationError of the object it
    decoded.  The OutputParserException of the parser is never what the
    caller gets; it only appears in the printed notice. *)
Theorem validator_error_provenance (raw : str) (ns : namespace) (e : exn) :
outcome (validator raw ns) = Raise e ->
(exists e0,
   primary raw = Raise e0
   /\ exn_class e0 = "OutputParserException"
   /\ Print (lit "Pydantic parsing failed: " ++ exn_str e0
             ++ lit ". Attempting direct JSON load.")
      ∈ trace (validator raw ns))
/\ (json_loads raw = Raise e
    \/ exists obj,
         json_loads raw = Ok obj
         /\ CombinedSuggestions_model_validate obj = Raise e
         /\ exn_class e = "ValidationError").
Proof.
destruct (primary raw) as [b|e0] eqn:Hp.
- rewrite (parse_output_ok raw ns b Hp). discriminate.
- rewrite (parse_output_fallback raw ns e0 Hp). cbn [outcome trace fst snd].
  intros Hf. split.
  + exists e0. split; [reflexivity|]. split.
    * now apply (parser_parse_error raw).
    * right. left.
  + unfold fallback in Hf. destruct (json_loads raw) as [obj|e1].
    * right. exists obj. split; [reflexivity|]. split; [exact Hf|].
      now apply (model_validate_error obj).
    * left. now injection Hf as ->.
Qed.

(** X10: when langchain's decoder and [json.loads] read the same object
    from the text, the validator returns exactly what validating that
    object gives: the fallback validates against the same schema, so it
    cannot turn a schema failure into a bundle. *)
Theorem validator_same_object (raw : str) (ns : namespace) (obj : pyobj) :
parse_json_markdown raw = Ok obj -> json_loads raw = Ok obj ->
outcome (validator raw ns) = CombinedSuggestions_model_validate obj.
Proof.
intros Hd Hj.
destruct (CombinedSuggestions_model_validate obj) as [b|e] eqn:Hv.
- assert (Hp : primary raw = Ok b).
  { unfold parser_parse. now rewrite Hd, Hv. }
  now rewrite (parse_output_ok raw ns b Hp).
- assert (Hp : exists e0, primary raw = Raise e0).
  { unfold parser_parse. rewrite Hd, Hv. eauto. }
  destruct Hp as [e0 Hp]. rewrite (parse_output_fallback raw ns e0 Hp).
  cbn [outcome fst]. unfold fallback. now rewrite Hj.
Qed.

(** X11: once the image is encoded, an error of the remote model is the
    error of the pipeline: it is raised as it is, right after the one
    call, and nothing is parsed. *)
Theorem pipeline_invoke_error
  (image : Image) (ns : namespace) (data_uri : str) (e : exn) :
encode image = Ok data_uri ->
gemini_invoke (gemini API_KEY) (request data_uri) = Raise e ->
pipeline image ns
= (Raise e, ns, [Invoke (gemini API_KEY) (request data_uri)]).
Proof.
intros Hu H. now rewrite pipeline_run, Hu, H.
Qed.

(** X12: a run of the pipeline calls the remote model at most once.  When
    [img.save] raises (an image that JPEG cannot hold), that error is the
    outcome and the model is not called at all.  Otherwise the model is
    called exactly once, first, with a single user message that carries
    the prompt and the image as a JPEG data URI, and whatever the reply
    and the decoders do it is not called again.  The namespace is left
    as it was. *)
Theorem pipeline_invokes_once (image : Image) (ns : namespace) :
match save_jpeg image 90 with
| Raise e => pipeline image ns = (Raise e, ns, [])
| Ok buf =>
    exists data_uri out t,
      encode image = Ok data_uri
      /\ data_uri = lit "data:image/jpeg;base64," ++ b64encode buf
      /\ pipeline image ns
         = (out, ns, Invoke (gemini API_KEY) (request data_uri) :: t)
      /\ invokes t = 0
end.
Proof.
rewrite pipeline_run. unfold pil_to_data_uri.
cbv [mbind result_bind mret result_ret].
destruct (save_jpeg image 90) as [buf|e]; [|reflexivity].
eexists _. destruct (gemini_invoke _ _) as [resp|e].
- generalize (normalize (raw_of_reply resp)); intros raw.
  destruct (primary raw) as [b|e] eqn:Hp.
  + rewrite (parse_output_ok raw ns b Hp). eexists _, _.
    repeat split; reflexivity.
  + rewrite (parse_output_fallback raw ns e Hp). eexists _, _.
    repeat split; reflexivity.
- eexists _, _. repeat split; reflexivity.
Qed.

Local Abbreviation example :=
  (example_use Image save_jpeg b64encode gemini_invoke parse_json_markdown
     json_loads format_instructions API_KEY image_open model_dump_json).

Lemma try_except_unit {S E : Type} (body : M S E unit)
  (handler : exn -> M S E unit) :
(forall e s, outcome (handler e s) = Ok tt) ->
forall s, outcome (try_except body handler s) = Ok tt.
Proof.
intros H s. unfold try_except.
destruct (body s) as [[[[]|e] s'] t]; [reflexivity|].
specialize (H e s'). now destruct (handler e s') as [[r s''] t'].
Qed.

(** X13: the example run, were it ever reached, cannot raise: whatever
    opening the image, the remote model or the decoders do, the error is
    caught and only printed. *)
Theorem example_use_never_raises (ns : namespace) :
outcome (example ns) = Ok tt.
Proof.
unfold example_use. apply try_except_unit. intros e s.
destruct (bool_decide (exn_class e = "FileNotFoundError")); [reflexivity|].
destruct (bool_decide
            (exn_class e ∈ ["RuntimeError"; "NotImplementedError";
                            "RecursionError"]));
  reflexivity.
Qed.

(** X14: when the image cannot be opened, the example run stops before
    the pipeline: the remote model is not called, and for a
    FileNotFoundError the two lines of advice are printed. *)
Theorem example_without_image (ns : namespace) (e : exn) :
image_open (lit "/home/logan78/Desktop/autocompletion_local/images/cityline.jpg")
= Raise e ->
invokes (trace (example ns)) = 0
/\ (exn_class e = "FileNotFoundError" ->
    trace (example ns)
    = [ Print (lit "Attempting to load image from: "
               ++ lit "/home/logan78/Desktop/autocompletion_local/images/cityline.jpg");
        ImageOpen (lit "/home/logan78/Desktop/autocompletion_local/images/cityline.jpg");
        Print ([NL] ++ lit "ERROR: Image file not found.");
        Print (lit "Please replace the placeholder path in image_path with a real image path on your system.") ]).
Proof.
intros H.
cbv [example_use try_except store print emit mbind M_bind bind mret M_ret ret].
rewrite H.
destruct (bool_decide (exn_class e = "FileNotFoundError")) eqn:Hc.
- split; [reflexivity|]. intros _. reflexivity.
- split.
  + destruct (bool_decide
                (exn_class e ∈ ["RuntimeError"; "NotImplementedError";
                                "RecursionError"])); reflexivity.
  + intros Hf. apply bool_decide_eq_false in Hc. contradiction.
Qed.

End ImagePipeline.

(** ** The output normalizer *)

Section Normalizer.

Import SuggestionsPY.

(** A text that does not start with a fence is passed through. *)
Lemma normalize_unfenced (raw : str) :
startswith (lit "```") raw = false -> normalize raw = raw.
Proof. intros H. unfold normalize. now rewrite H. Qed.

(** The two examples of the specification. *)
Lemma normalize_examples :
normalize (Mock.fenced (Mock.object_text (lit "a"))) = Mock.object_text (lit "a")
/\ normalize (Mock.object_text (lit "a")) = Mock.object_text (lit "a").
Proof. split; reflexivity. Qed.

(** A reply fenced with the [json] tag, whose content is trimmed, not
    empty and free of the word [json], is reduced to its content. *)
Lemma normalize_fenced (inner : str) :
inner <> [] -> strip inner = inner -> contains (lit "json") inner = false ->
normalize (Mock.fenced inner) = inner.
Proof.
intros Hne Hs Hc. unfold normalize, Mock.fenced.
change (startswith (lit "```") (lit "```json" ++ [NL] ++ inner ++ [NL] ++ lit "```"))
  with true. cbv iota.
assert (E1 : lit "```json" ++ [NL] ++ inner ++ [NL] ++ lit "```"
             = 96%N :: (lit "``json" ++ [NL] ++ inner ++ [NL] ++ lit "``")
                 ++ [96%N])
  by (rewrite <- !app_assoc; reflexivity).
assert (E2 : lit "```json" ++ [NL] ++ inner ++ [NL] ++ lit "```"
             = lit "```" ++ (lit "json" ++ [NL] ++ inner ++ [NL]) ++ lit "```")
  by (rewrite <- !app_assoc; reflexivity).
assert (E3 : lit "json" ++ [NL] ++ inner ++ [NL]
             = 106%N :: (lit "son" ++ [NL] ++ inner) ++ [NL])
  by (rewrite <- !app_assoc; reflexivity).
assert (Hraw : strip (lit "```json" ++ [NL] ++ inner ++ [NL] ++ lit "```")
               = lit "```json" ++ [NL] ++ inner ++ [NL] ++ lit "```").
{ rewrite E1. apply strip_with_kept; reflexivity. }
rewrite Hraw.
assert (Htick : strip_chars (lit "`")
                  (lit "```json" ++ [NL] ++ inner ++ [NL] ++ lit "```")
                = lit "json" ++ [NL] ++ inner ++ [NL]).
{ unfold strip_chars. rewrite E2, strip_with_around by reflexivity.
  rewrite E3. apply strip_with_kept; reflexivity. }
rewrite Htick.
assert (Hrep : replace (lit "json") [] (lit "json" ++ [NL] ++ inner ++ [NL])
               = [NL] ++ inner ++ [NL]).
{ cbn [replace lit list_ascii_of_string map app replace_from startswith].
  cbn [N_of_ascii N_of_digits N.eqb Pos.eqb andb length Nat.sub
       N.add N.mul Pos.add Pos.mul Pos.succ].
  f_equal. apply replace_from_absent.
  apply contains_snoc; [discriminate | reflexivity | exact Hc]. }
rewrite Hrep.
unfold strip. rewrite (strip_with_around isspace [NL] inner [NL]) by reflexivity.
exact Hs.
Qed.

(** C1, on the failing input: in a fenced reply whose content is the
    object [{"json":1}], the normalizer removes the word [json] inside
    the content as well as the tag, and returns [{"":1}] instead of the
    content unchanged. *)
Theorem normalize_removes_json_in_content :
normalize (Mock.fenced (Mock.object_text (lit "json")))
= Mock.object_text []
/\ normalize (Mock.fenced (Mock.object_text (lit "json")))
   <> Mock.object_text (lit "json").
Proof. split; [reflexivity | discriminate]. Qed.

(** *** Further properties of the normalizer *)

Ltac reassoc :=
  repeat (progress cbn [app] || rewrite <- app_assoc); reflexivity.

(** Between two fences, a content that neither starts nor ends with a
    backtick is what is left once the fences are taken off. *)
Lemma fence_strip_chars (c d : codepoint) (m : str) :
c <> 96%N -> d <> 96%N ->
strip_chars (lit "`") (strip (lit "```" ++ (c :: m ++ [d]) ++ lit "```"))
= c :: m ++ [d].
Proof.
intros Hc Hd.
assert (E : lit "```" ++ (c :: m ++ [d]) ++ lit "```"
            = 96%N :: (lit "``" ++ (c :: m ++ [d]) ++ lit "``") ++ [96%N])
  by reassoc.
assert (Hs : strip (lit "```" ++ (c :: m ++ [d]) ++ lit "```")
             = lit "```" ++ (c :: m ++ [d]) ++ lit "```").
{ rewrite E. apply strip_with_kept; reflexivity. }
rewrite Hs. unfold strip_chars. rewrite strip_with_around by reflexivity.
apply strip_with_kept; cbn [in_chars existsb lit map list_ascii_of_string];
  rewrite orb_false_r; now apply N.eqb_neq.
Qed.

Lemma startswith_fence (s : str) : startswith (lit "```") (lit "```" ++ s) = true.
Proof. apply startswith_app. Qed.

(** X15: for a reply between two triple-backtick fences, whose content
    neither starts nor ends with a backtick, the normalizer returns the
    content with every occurrence of [json] removed, then trimmed:
    whatever the tag is, and wherever [json] occurs. *)
Theorem normalize_fence_content (c d : codepoint) (m : str) :
c <> 96%N -> d <> 96%N ->
normalize (lit "```" ++ (c :: m ++ [d]) ++ lit "```")
= strip (replace (lit "json") [] (c :: m ++ [d])).
Proof.
intros Hc Hd. unfold normalize.
rewrite startswith_fence. now rewrite fence_strip_chars.
Qed.

(** X16: a reply fenced with the [json] tag or with no tag, whose
    content is not empty, is trimmed and does not contain the word
    [json], is normalized to exactly its content. *)
Theorem normalize_fenced_reply (inner : str) :
inner <> [] -> strip inner = inner -> contains (lit "json") inner = false ->
normalize (lit "```json" ++ [NL] ++ inner ++ [NL] ++ lit "```") = inner
/\ normalize (lit "```" ++ [NL] ++ inner ++ [NL] ++ lit "```") = inner.
Proof.
intros Hne Hs Hc. split; [now apply normalize_fenced|].
assert (E : lit "```" ++ [NL] ++ inner ++ [NL] ++ lit "```"
            = lit "```" ++ (NL :: inner ++ [NL]) ++ lit "```")
  by reassoc.
rewrite E. unfold normalize.
rewrite startswith_fence, fence_strip_chars by discriminate.
rewrite replace_absent.
- change (NL :: inner ++ [NL]) with ([NL] ++ inner ++ [NL]).
  unfold strip. rewrite (strip_with_around isspace [NL] inner [NL])
    by reflexivity. exact Hs.
- discriminate.
- change (NL :: inner ++ [NL]) with ((NL :: inner) ++ [NL]).
  apply contains_snoc; [discriminate | reflexivity |].
  cbn [contains]. rewrite Hc. reflexivity.
Qed.

(** X17: a tag other than [json] is not removed: for a fence whose first
    line is a tag that starts with neither a backtick nor whitespace,
    and as long as the word [json] occurs nowhere, the normalizer
    returns the tag, a newline and the content. *)
Theorem normalize_keeps_other_tag (c : codepoint) (tag inner : str) :
c <> 96%N -> isspace c = false ->
inner <> [] -> strip inner = inner ->
contains (lit "json") ((c :: tag) ++ [NL] ++ inner) = false ->
normalize (lit "```" ++ (c :: tag) ++ [NL] ++ inner ++ [NL] ++ lit "```")
= (c :: tag) ++ [NL] ++ inner.
Proof.
intros Hc Hsp Hne Hs Hj.
assert (E : lit "```" ++ (c :: tag) ++ [NL] ++ inner ++ [NL] ++ lit "```"
            = lit "```" ++ (c :: (tag ++ [NL] ++ inner) ++ [NL]) ++ lit "```")
  by reassoc.
rewrite E. unfold normalize.
rewrite startswith_fence, fence_strip_chars by (assumption || discriminate).
rewrite replace_absent.
- change (c :: (tag ++ [NL] ++ inner) ++ [NL])
    with ((c :: tag ++ [NL] ++ inner) ++ [NL]).
  unfold strip. rewrite strip_with_snoc by reflexivity.
  replace (c :: tag ++ [NL] ++ inner) with (c :: (tag ++ [NL]) ++ inner)
    by (now rewrite <- app_assoc).
  rewrite strip_with_kept_tail by assumption.
  now rewrite <- app_assoc.
- discriminate.
- change (c :: (tag ++ [NL] ++ inner) ++ [NL])
    with (((c :: tag) ++ [NL] ++ inner) ++ [NL]).
  apply contains_snoc; [discriminate | reflexivity | exact Hj].
Qed.

(** X18: the normalizer never lengthens its input: it only removes. *)
Theorem normalize_never_longer (raw : str) :
length (normalize raw) <= length raw.
Proof.
unfold normalize. destruct (startswith (lit "```") raw); [|lia].
unfold strip, strip_chars.
etransitivity; [apply length_strip_with|].
cbn [replace lit list_ascii_of_string map].
etransitivity; [apply length_replace_from_nil|].
etransitivity; [apply length_strip_with|].
apply length_strip_with.
Qed.

(** The text read from a reply is trimmed, and stays so when the fence
    is taken off. *)
Lemma raw_of_reply_trimmed (resp : reply) :
strip (raw_of_reply resp) = raw_of_reply resp.
Proof.
unfold raw_of_reply. destruct (content resp) as [[s|parts]|];
  apply strip_with_idem.
Qed.

Lemma normalize_trimmed (raw : str) :
strip raw = raw -> strip (normalize raw) = normalize raw.
Proof.
intros H. unfold normalize. destruct (startswith (lit "```") raw);
  [apply strip_with_idem | exact H].
Qed.

End Normalizer.

(** ** The sampling options *)

(** C9, as amended: every model call of /autocomplete is made with
    [max_tokens=20], [temperature=0.1] and [top_p=0.9], every model call
    of /refine with [max_tokens=50], [temperature=0.2] and [top_p=0.9],
    both temperatures within 0.1 - 0.2; the image pipeline calls its
    model through a client built from the model name and the API key
    alone, with no temperature, nucleus threshold or output length set. *)
Theorem sampling_configuration
  (str_of_list : list str -> str) (st : Main.server)
  (request : Main.AutocompleteRequest)
  (Image : Type) (save_jpeg : Image -> Z -> result (list N))
  (b64encode : list N -> str)
  (gemini_invoke : SuggestionsPY.gemini_args -> list SuggestionsPY.message ->
                   result SuggestionsPY.reply)
  (parse_json_markdown json_loads : str -> result pyobj)
  (format_instructions : str) (API_KEY : option str)
  (image : Image) (ns : SuggestionsPY.namespace) :
Forall (Spec.sampled_with 20 0.1 0.9)
  (trace (Main.autocomplete str_of_list request st))
/\ Forall (Spec.sampled_with 50 0.2 0.9)
     (trace (Main.refine str_of_list request st))
/\ Spec.low_temperature 0.1 = true
/\ Spec.low_temperature 0.2 = true
/\ Forall (Spec.invoked_with (SuggestionsPY.gemini API_KEY))
     (trace (SuggestionsPY.gemini_user_style_suggestions Image save_jpeg
               b64encode gemini_invoke parse_json_markdown json_loads
               format_instructions API_KEY image ns))
/\ SuggestionsPY.temperature (SuggestionsPY.gemini API_KEY) = None
/\ SuggestionsPY.top_p (SuggestionsPY.gemini API_KEY) = None
/\ SuggestionsPY.max_output_tokens (SuggestionsPY.gemini API_KEY) = None.
Proof.
split.
{ destruct (autocomplete_trace str_of_list st request) as [-> | ->];
    repeat constructor. }
split.
{ destruct (refine_trace str_of_list st request) as [-> | ->];
    repeat constructor. }
split; [reflexivity|]. split; [reflexivity|].
split; [apply pipeline_client|]. repeat split.
Qed.

(** ** Instances on the test doubles *)

Section Instances.

Import Main SuggestionsPY Spec.

Lemma full_text_starts_with_sentence_witness :
exists resp,
  outcome (autocomplete Mock.str_of_list Mock.plain_request
             {| llm := Some (Mock.llama (lit " warm amber glow ")) |})
  = Ok resp
  /\ startswith (lit "soften the overall") (full_text resp) = true.
Proof.
refine (proj1 (full_text_starts_with_sentence Mock.str_of_list
                 (Mock.llama (lit " warm amber glow ")) Mock.plain_request
                 (lit " warm amber glow ") _ _) _).
- vm_compute. discriminate.
- vm_compute. lia.
- exists []. reflexivity.
Defined.

Lemma full_text_assembly_witness :
exists resp,
  outcome (refine Mock.str_of_list Mock.typing_request
             {| llm := Some (Mock.llama (lit "warm amber glow")) |})
  = Ok resp
  /\ completion resp = strip (lit "warm amber glow")
  /\ assembled (sentence Mock.typing_request) (completion resp)
       (full_text resp).
Proof.
refine (proj2 (full_text_assembly Mock.str_of_list
                 (Mock.llama (lit "warm amber glow")) Mock.typing_request
                 (lit "warm amber glow") _) _).
- vm_compute. discriminate.
- exists []. reflexivity.
Defined.

(** C4, as stated, fails: a sentence typed with a trailing space keeps
    it, so [full_text] has two spaces where the specification has one. *)
Lemma full_text_keeps_trailing_space :
exists resp,
  outcome (autocomplete Mock.str_of_list Mock.typing_request
             {| llm := Some (Mock.llama (lit "warm amber glow")) |})
  = Ok resp
  /\ full_text resp = lit "soften the overall  warm amber glow"
  /\ spec_full_text (sentence Mock.typing_request) (lit "warm amber glow")
     = lit "soften the overall warm amber glow"
  /\ full_text resp
     <> spec_full_text (sentence Mock.typing_request) (lit "warm amber glow").
Proof.
eexists. split; [reflexivity|]. split; [reflexivity|].
split; [reflexivity|]. vm_compute. discriminate.
Qed.

Lemma blank_sentence_rejected_witness :
autocomplete Mock.str_of_list Mock.blank_request
  {| llm := Some (Mock.llama (lit "warm amber glow")) |}
= (Raise InvalidInput, {| llm := Some (Mock.llama (lit "warm amber glow")) |}, []).
Proof.
refine (proj1 (blank_sentence_rejected Mock.str_of_list
                 {| llm := Some (Mock.llama (lit "warm amber glow")) |}
                 Mock.blank_request _)).
reflexivity.
Defined.

(** C6, as stated, fails: with no model loaded a blank sentence is
    answered with 503, not with 400. *)
Lemma blank_sentence_unloaded_is_503 :
outcome (autocomplete Mock.str_of_list Mock.blank_request {| llm := None |})
= Raise ModelUnavailable
/\ outcome (autocomplete Mock.str_of_list Mock.blank_request {| llm := None |})
   <> Raise InvalidInput
/\ strip (sentence Mock.blank_request) = [].
Proof. split; [reflexivity|]. split; [discriminate | reflexivity]. Qed.

Lemma model_unavailable_everywhere_witness :
let st := final (startup Mock.Llama_missing {| llm := None |}) in
let r := serve_all Mock.str_of_list
           [GetHealth; PostAutocomplete Mock.plain_request;
            PostRefine Mock.blank_request; GetHealth] st in
llm st = None
/\ Forall2 unavailable_response
     [GetHealth; PostAutocomplete Mock.plain_request;
      PostRefine Mock.blank_request; GetHealth] r.1.1
/\ llm r.1.2 = None
/\ r.2 = []
/\ status ModelUnavailable = Some 503%Z
/\ status ModelUnavailable_health = Some 503%Z.
Proof.
refine (model_unavailable_everywhere Mock.str_of_list Mock.Llama_missing
          {| llm := None |} _ _ _).
reflexivity.
Defined.

Lemma availability_checked_first_witness :
outcome (autocomplete Mock.str_of_list Mock.blank_request {| llm := None |})
= Raise ModelUnavailable
/\ outcome (refine Mock.str_of_list Mock.blank_request {| llm := None |})
   = Raise ModelUnavailable
/\ status ModelUnavailable = Some 503%Z
/\ status InvalidInput = Some 400%Z.
Proof.
refine (availability_checked_first Mock.str_of_list Mock.blank_request _).
reflexivity.
Defined.

(** C9, as stated, fails for the image pipeline: its client has no
    nucleus-sampling threshold. *)
Lemma gemini_sets_no_top_p :
SuggestionsPY.top_p (gemini (Some (lit "key"))) = None
/\ SuggestionsPY.top_p (gemini (Some (lit "key"))) <> Some 0.9%float.
Proof. split; [reflexivity | discriminate]. Qed.

Lemma schema_validator_fallback_witness :
outcome (parse_output Mock.decode_bundles Mock.decode_bundles
           (lit "Here are the suggestions") ∅)
= Raise (PyError "JSONDecodeError" (lit "Expecting value")).
Proof.
destruct (schema_validator_fallback Mock.decode_bundles Mock.decode_bundles
            (lit "Here are the suggestions") ∅) as (_ & _ & _ & _ & H & _).
eapply H; reflexivity.
Defined.

Lemma bundle_cardinality_witness :
(exists b,
   outcome (Mock.pipeline (Mock.fenced (Mock.bundle_text 15)) ∅) = Ok b
   /\ total_count b = 19)
/\ (exists e,
      parser_parse Mock.decode_bundles (Mock.bundle_text 14) = Raise e).
Proof.
pose proof (bundle_cardinality unit (fun _ _ => Ok []) (fun _ => [])
              (Mock.gemini_invoke (Mock.fenced (Mock.bundle_text 15)))
              Mock.decode_bundles Mock.decode_bundles
              (lit "The output should be formatted as a JSON instance.")
              None tt ∅) as [H15 H14].
split.
- exists Mock.bundle. unfold Mock.pipeline.
  specialize (H15 Mock.bundle).
  destruct H15 as (_ & _ & Ht); [vm_compute; reflexivity|].
  split; [vm_compute; reflexivity | exact Ht].
- refine (proj1 (H14 (Mock.bundle_text 14) (Mock.bundle_object 14) _ _)).
  + vm_compute. reflexivity.
  + eexists _, _. repeat split; reflexivity.
Defined.

End Instances.

(** ** The pipeline, end to end *)

Section PipelineComposition.

Import SuggestionsPY Spec.

Variable Image : Type.
Variable save_jpeg : Image -> Z -> result (list N).
Variable b64encode : list N -> str.
Variable gemini_invoke : gemini_args -> list message -> result reply.
Variable parse_json_markdown : str -> result pyobj.
Variable json_loads : str -> result pyobj.
Variable format_instructions : str.
Variable API_KEY : option str.

Local Abbreviation pipeline :=
  (gemini_user_style_suggestions Image save_jpeg b64encode gemini_invoke
     parse_json_markdown json_loads format_instructions API_KEY).
Local Abbreviation encode := (pil_to_data_uri Image save_jpeg b64encode).
Local Abbreviation request data_uri :=
  [user_message format_instructions data_uri].

(** X19: whatever the remote model replies, the text the pipeline hands
    to the parser, and to [json.loads] when the fallback runs, is the
    same text, and it has no leading or trailing whitespace. *)
Theorem pipeline_decodes_trimmed_text
  (image : Image) (ns : namespace) (data_uri : str) (resp : reply) :
encode image = Ok data_uri ->
gemini_invoke (gemini API_KEY) (request data_uri) = Ok resp ->
strip (normalize (raw_of_reply resp)) = normalize (raw_of_reply resp)
/\ Forall (decodes (normalize (raw_of_reply resp)))
     (trace (pipeline image ns)).
Proof.
intros Hu H. split.
- apply normalize_trimmed, raw_of_reply_trimmed.
- rewrite pipeline_run, Hu, H.
  generalize (normalize (raw_of_reply resp)); intros raw.
  destruct (parser_parse parse_json_markdown raw) as [b|e] eqn:Hp.
  + rewrite (parse_output_ok parse_json_markdown json_loads raw ns b Hp).
    cbn [trace snd app]. repeat constructor.
  + rewrite (parse_output_fallback parse_json_markdown json_loads raw ns e Hp).
    cbn [trace snd app]. repeat constructor.
Qed.

(** X20: when the image can be encoded, the remote model replies with a
    JSON text in a [json] fence, surrounded by any whitespace, and the
    parser decodes the content (trimmed, not empty, without the word
    [json]) to an object that holds a bundle, the pipeline returns that
    bundle after one call and one parse, with no fallback. *)
Theorem pipeline_end_to_end
  (image : Image) (ns : namespace) (data_uri : str) (resp : reply)
  (s inner : str) (obj : pyobj) (b : CombinedSuggestions) :
encode image = Ok data_uri ->
gemini_invoke (gemini API_KEY) (request data_uri) = Ok resp ->
content resp = Some (ContentStr s) ->
strip s = lit "```json" ++ [NL] ++ inner ++ [NL] ++ lit "```" ->
inner <> [] -> strip inner = inner -> contains (lit "json") inner = false ->
parse_json_markdown inner = Ok obj -> holds_bundle obj b ->
pipeline image ns
= (Ok b, ns, [Invoke (gemini API_KEY) (request data_uri); ParserParse inner]).
Proof.
intros Hu Hi Hc Hs Hne Ht Hj Hd Hb.
rewrite pipeline_run, Hu, Hi.
assert (Hraw : normalize (raw_of_reply resp) = inner).
{ unfold raw_of_reply. rewrite Hc, Hs. now apply normalize_fenced. }
rewrite Hraw.
assert (Hp : parser_parse parse_json_markdown inner = Ok b).
{ unfold parser_parse. rewrite Hd.
  apply model_validate_complete in Hb. now rewrite Hb. }
now rewrite (parse_output_ok parse_json_markdown json_loads inner ns b Hp).
Qed.

(** X21: the fallback recovers a reply that langchain's parser rejects
    but [json.loads] decodes to an object that holds a bundle: the
    bundle is returned, after the parse, the printed notice and the one
    decode. *)
Theorem fallback_recovers
  (raw : str) (ns : namespace) (e : exn) (obj : pyobj)
  (b : CombinedSuggestions) :
parser_parse parse_json_markdown raw = Raise e ->
json_loads raw = Ok obj -> holds_bundle obj b ->
parse_output parse_json_markdown json_loads raw ns
= (Ok b, ns,
   [ ParserParse raw;
     Print (lit "Pydantic parsing failed: " ++ exn_str e
            ++ lit ". Attempting direct JSON load.");
     JsonLoads raw ]).
Proof.
intros Hp Hj Hb.
rewrite (parse_output_fallback parse_json_markdown json_loads raw ns e Hp).
unfold fallback. rewrite Hj.
apply model_validate_complete in Hb. now rewrite Hb.
Qed.

End PipelineComposition.

(** ** The prompts *)

Section Prompts.

Import Main.

Variable str_of_list : list str -> str.

Lemma contains_here (x b : str) : contains x (x ++ b) = true.
Proof.
generalize (startswith_app x b).
destruct (x ++ b); cbn [contains]; now intros ->.
Qed.

Lemma contains_middle (a x b : str) : contains x (a ++ x ++ b) = true.
Proof.
induction a as [|c a IH]; cbn [app]; [apply contains_here|].
cbn [contains]. rewrite IH. apply orb_true_r.
Qed.

(** X22: both prompts give the model the sentence exactly as the client
    sent it, whitespace included, and the whole list of suggestions as
    [str()] renders it; each call sends two messages, a system message
    and then the user message with the prompt. *)
Theorem prompts_embed_input (base_sentence : str) (light_suggestions : list str) :
contains base_sentence
  (autocomplete_prompt str_of_list base_sentence light_suggestions) = true
/\ contains (str_of_list light_suggestions)
     (autocomplete_prompt str_of_list base_sentence light_suggestions) = true
/\ contains base_sentence
     (refine_prompt str_of_list base_sentence light_suggestions) = true
/\ contains (str_of_list light_suggestions)
     (refine_prompt str_of_list base_sentence light_suggestions) = true
/\ map role (autocomplete_messages str_of_list base_sentence light_suggestions)
   = [lit "system"; lit "user"]
/\ map role (refine_messages str_of_list base_sentence light_suggestions)
   = [lit "system"; lit "user"].
Proof.
unfold autocomplete_prompt, refine_prompt.
repeat split.
- rewrite !app_assoc. rewrite <- (app_assoc _ base_sentence).
  apply contains_middle.
- apply contains_middle.
- rewrite !app_assoc. rewrite <- (app_assoc _ base_sentence).
  apply contains_middle.
- apply contains_middle.
Qed.

End Prompts.

(** ** Further instances on the test doubles *)

Section MoreInstances.

Import Main SuggestionsPY Spec.

Lemma holds_bundle_mock : holds_bundle (Mock.bundle_object 15) Mock.bundle.
Proof. eexists _, _. repeat split; reflexivity. Qed.

Lemma generation_failure_is_500_witness :
autocomplete Mock.str_of_list Mock.plain_request
  {| llm := Some (Mock.llama_failing Mock.out_of_memory) |}
= (Raise (HTTPException 500
            (lit "Error generating autocomplete: " ++ exn_str Mock.out_of_memory)),
   {| llm := Some (Mock.llama_failing Mock.out_of_memory) |},
   [ChatCompletion
      (autocomplete_messages Mock.str_of_list (sentence Mock.plain_request)
         (suggestions Mock.plain_request)) autocomplete_sampling]).
Proof.
refine (proj1 (generation_failure_is_500 Mock.str_of_list
                 (Mock.llama_failing Mock.out_of_memory) Mock.plain_request
                 Mock.out_of_memory _) _).
- vm_compute. discriminate.
- reflexivity.
Defined.

Lemma malformed_answer_is_500_witness :
outcome (refine Mock.str_of_list Mock.plain_request
           {| llm := Some Mock.llama_no_choice |})
= Raise (HTTPException 500
           (lit "Error generating refinement: list index out of range")).
Proof.
refine (proj1 (proj2 (proj2 (malformed_answer_is_500 Mock.str_of_list
                               Mock.llama_no_choice Mock.plain_request [] _)))
          _).
- vm_compute. discriminate.
- reflexivity.
Defined.

Lemma responses_are_trimmed_witness :
let resp :=
  {| completion := lit "warm amber glow";
     full_text := lit "soften the overall warm amber glow" |} in
strip (completion resp) = completion resp
/\ strip (full_text resp) = full_text resp
/\ full_text resp <> []
/\ endswith (completion resp) (full_text resp) = true.
Proof.
refine (responses_are_trimmed Mock.str_of_list
          {| llm := Some (Mock.llama (lit " warm amber glow ")) |}
          Mock.plain_request _ _).
left. vm_compute. reflexivity.
Defined.

Lemma model_validate_iff_witness :
CombinedSuggestions_model_validate (Mock.bundle_object 15) = Ok Mock.bundle.
Proof.
refine (proj2 (model_validate_iff (Mock.bundle_object 15) Mock.bundle) _).
eexists _, _. repeat split; reflexivity.
Defined.

Lemma validator_error_provenance_witness :
(exists e0,
   parser_parse Mock.decode_bundles (lit "Here are the suggestions") = Raise e0
   /\ exn_class e0 = "OutputParserException"
   /\ Print (lit "Pydantic parsing failed: " ++ exn_str e0
             ++ lit ". Attempting direct JSON load.")
      ∈ trace (parse_output Mock.decode_bundles Mock.decode_bundles
                 (lit "Here are the suggestions") ∅))
/\ (Mock.decode_bundles (lit "Here are the suggestions")
    = Raise (PyError "JSONDecodeError" (lit "Expecting value"))
    \/ exists obj,
         Mock.decode_bundles (lit "Here are the suggestions") = Ok obj
         /\ CombinedSuggestions_model_validate obj
            = Raise (PyError "JSONDecodeError" (lit "Expecting value"))
         /\ exn_class (PyError "JSONDecodeError" (lit "Expecting value"))
            = "ValidationError").
Proof.
refine (validator_error_provenance Mock.decode_bundles Mock.decode_bundles
          (lit "Here are the suggestions") ∅ _ _).
reflexivity.
Defined.

Lemma validator_same_object_witness :
outcome (parse_output Mock.decode_bundles Mock.decode_bundles
           (Mock.bundle_text 14) ∅)
= CombinedSuggestions_model_validate (Mock.bundle_object 14).
Proof.
refine (validator_same_object Mock.decode_bundles Mock.decode_bundles
          (Mock.bundle_text 14) ∅ (Mock.bundle_object 14) _ _);
  vm_compute; reflexivity.
Defined.

Lemma pipeline_invoke_error_witness :
gemini_user_style_suggestions unit (fun _ _ => Ok []) (fun _ => [])
  Mock.gemini_down Mock.decode_bundles Mock.decode_bundles [] None tt ∅
= (Raise (PyError "ConnectionError" (lit "Failed to reach the model")), ∅,
   [ Invoke (gemini None)
       [user_message [] (lit "data:image/jpeg;base64,")] ]).
Proof.
refine (pipeline_invoke_error unit (fun _ _ => Ok []) (fun _ => [])
          Mock.gemini_down Mock.decode_bundles Mock.decode_bundles [] None
          tt ∅ (lit "data:image/jpeg;base64,")
          (PyError "ConnectionError" (lit "Failed to reach the model")) _ _);
  reflexivity.
Defined.

Lemma example_without_image_witness :
invokes (trace (example_use unit (fun _ _ => Ok []) (fun _ => [])
                  Mock.gemini_down Mock.decode_bundles Mock.decode_bundles
                  [] None Mock.image_missing (fun _ => []) ∅))
= 0.
Proof.
refine (proj1 (example_without_image unit (fun _ _ => Ok []) (fun _ => [])
                 Mock.gemini_down Mock.decode_bundles Mock.decode_bundles
                 [] None Mock.image_missing (fun _ => []) ∅
                 (PyError "FileNotFoundError" (lit "No such file or directory"))
                 _)).
reflexivity.
Defined.

Lemma normalize_fence_content_witness :
normalize (lit "```" ++ (106%N :: (lit "son" ++ [NL]
                                    ++ Mock.object_text (lit "json"))
                          ++ [NL]) ++ lit "```")
= strip (replace (lit "json") []
           (106%N :: (lit "son" ++ [NL] ++ Mock.object_text (lit "json"))
              ++ [NL])).
Proof.
refine (normalize_fence_content 106%N NL
          (lit "son" ++ [NL] ++ Mock.object_text (lit "json")) _ _);
  discriminate.
Defined.

Lemma normalize_fenced_reply_witness :
normalize (lit "```json" ++ [NL] ++ Mock.object_text (lit "a") ++ [NL]
           ++ lit "```")
= Mock.object_text (lit "a")
/\ normalize (lit "```" ++ [NL] ++ Mock.object_text (lit "a") ++ [NL]
              ++ lit "```")
   = Mock.object_text (lit "a").
Proof.
refine (normalize_fenced_reply (Mock.object_text (lit "a")) _ _ _).
- discriminate.
- reflexivity.
- reflexivity.
Defined.

Lemma normalize_keeps_other_tag_witness :
normalize (lit "```" ++ (112%N :: lit "ython") ++ [NL]
           ++ Mock.object_text (lit "a") ++ [NL] ++ lit "```")
= (112%N :: lit "ython") ++ [NL] ++ Mock.object_text (lit "a").
Proof.
refine (normalize_keeps_other_tag 112%N (lit "ython")
          (Mock.object_text (lit "a")) _ _ _ _ _).
- discriminate.
- reflexivity.
- discriminate.
- reflexivity.
- reflexivity.
Defined.

Lemma pipeline_decodes_trimmed_text_witness :
let resp :=
  {| content := Some (ContentStr (Mock.fenced (Mock.bundle_text 15)));
     reply_str := Mock.fenced (Mock.bundle_text 15) |} in
strip (normalize (raw_of_reply resp)) = normalize (raw_of_reply resp)
/\ Forall (decodes (normalize (raw_of_reply resp)))
     (trace (Mock.pipeline (Mock.fenced (Mock.bundle_text 15)) ∅)).
Proof.
refine (pipeline_decodes_trimmed_text unit (fun _ _ => Ok [])
          (fun _ => [])
          (Mock.gemini_invoke (Mock.fenced (Mock.bundle_text 15)))
          Mock.decode_bundles Mock.decode_bundles
          (lit "The output should be formatted as a JSON instance.")
          None tt ∅ (lit "data:image/jpeg;base64,")
          {| content := Some (ContentStr (Mock.fenced (Mock.bundle_text 15)));
             reply_str := Mock.fenced (Mock.bundle_text 15) |} _ _);
  reflexivity.
Defined.

Lemma pipeline_end_to_end_witness :
Mock.pipeline ([NL] ++ Mock.fenced (Mock.bundle_text 15) ++ [NL]) ∅
= (Ok Mock.bundle, ∅,
   [ Invoke (gemini None)
       [ user_message
           (lit "The output should be formatted as a JSON instance.")
           (lit "data:image/jpeg;base64,") ];
     ParserParse (Mock.bundle_text 15) ]).
Proof.
refine (pipeline_end_to_end unit (fun _ _ => Ok []) (fun _ => [])
          (Mock.gemini_invoke
             ([NL] ++ Mock.fenced (Mock.bundle_text 15) ++ [NL]))
          Mock.decode_bundles Mock.decode_bundles
          (lit "The output should be formatted as a JSON instance.")
          None tt ∅ (lit "data:image/jpeg;base64,")
          {| content :=
               Some (ContentStr
                       ([NL] ++ Mock.fenced (Mock.bundle_text 15) ++ [NL]));
             reply_str := [NL] ++ Mock.fenced (Mock.bundle_text 15) ++ [NL] |}
          ([NL] ++ Mock.fenced (Mock.bundle_text 15) ++ [NL])
          (Mock.bundle_text 15) (Mock.bundle_object 15) Mock.bundle
          _ _ _ _ _ _ _ _ _).
- reflexivity.
- reflexivity.
- reflexivity.
- vm_compute. reflexivity.
- vm_compute. discriminate.
- vm_compute. reflexivity.
- vm_compute. reflexivity.
- vm_compute. reflexivity.
- exact holds_bundle_mock.
Defined.

Lemma fallback_recovers_witness :
parse_output (Mock.decode []) Mock.decode_bundles (Mock.bundle_text 15) ∅
= (Ok Mock.bundle, ∅,
   [ ParserParse (Mock.bundle_text 15);
     Print (lit "Pydantic parsing failed: "
            ++ exn_str (PyError "OutputParserException"
                          (lit "Invalid json output: " ++ Mock.bundle_text 15))
            ++ lit ". Attempting direct JSON load.");
     JsonLoads (Mock.bundle_text 15) ]).
Proof.
refine (fallback_recovers (Mock.decode []) Mock.decode_bundles
          (Mock.bundle_text 15) ∅
          (PyError "OutputParserException"
             (lit "Invalid json output: " ++ Mock.bundle_text 15))
          (Mock.bundle_object 15) Mock.bundle _ _ _).
- reflexivity.
- vm_compute. reflexivity.
- exact holds_bundle_mock.
Defined.

Lemma guard_aborts_module_load_witness :
let prefix :=
  module_prefix (Some (lit "key")) Mock.find_module (Ok true)
    Mock.new_client Mock.new_model (Ok tt)
    (Ok (lit "The output should be formatted as a JSON instance.")) in
let body :=
  module_body unit (fun _ _ => Ok []) (fun _ => [])
    (Mock.gemini_invoke (Mock.fenced (Mock.bundle_text 15)))
    Mock.decode_bundles Mock.decode_bundles
    (lit "The output should be formatted as a JSON instance.")
    (Some (lit "key")) (fun _ => Ok tt) (fun _ => [])
    Mock.find_module (Ok true) Mock.new_client Mock.new_model (Ok tt)
    (Ok (lit "The output should be formatted as a JSON instance.")) in
final (prefix (initial_namespace (lit "__main__")))
  !! "gemini_user_style_suggestions" = Some BFunction
/\ body (initial_namespace (lit "__main__"))
   = (Raise NameError_name,
      final (prefix (initial_namespace (lit "__main__"))), []).
Proof.
cbv zeta.
refine (proj1 (proj2 (proj2 (proj2
          (guard_aborts_module_load unit (fun _ _ => Ok []) (fun _ => [])
             (Mock.gemini_invoke (Mock.fenced (Mock.bundle_text 15)))
             Mock.decode_bundles Mock.decode_bundles
             (lit "The output should be formatted as a JSON instance.")
             (Some (lit "key")) (fun _ => Ok tt) (fun _ => [])
             Mock.find_module (Ok true) Mock.new_client Mock.new_model
             (Ok tt)
             (Ok (lit "The output should be formatted as a JSON instance."))
             (lit "__main__"))))) _).
vm_compute. reflexivity.
Defined.

End MoreInstances.
